(** * DiveWise risk engine: a shallow embedding of [RiskEngine] (app.py)

    The development follows app.py block by block: [SafetyPolicy],
    [RiskEngine._map_status], [RiskEngine._dedupe],
    [RiskEngine.assess_realtime] and [RiskEngine.assess_forecast].

    Modelling decisions.
    - A dictionary of the provider ([wx], [sea], one hour [h], [marine]) is
      a [gmap string pyval]; [d.get(k)] is [dget d k].
    - A JSON scalar is a [pyval]: [None], a number, or a string.  A number
      ([int], [bool] or finite [float]) is represented by its exact rational
      value; every comparison of the engine is then the comparison of the
      values.  The sum [precipitation_mm + rain_mm] is the exact sum.  NaN
      and the infinities are outside the model.
    - Python raises [TypeError] / [ValueError] when a string reaches a
      comparison, a sum with a number or a [:.Nf] format: the embedding
      returns [None] there, and [Some verdict] when the call returns.
    - Text is a [string] of UTF-8 bytes. *)

From Stdlib Require Import ZArith QArith Lqa String Ascii List DecimalString.
From stdpp Require Import gmap strings list.

Local Open Scope string_scope.
Local Open Scope list_scope.
Local Open Scope Z_scope.

(** ** Python values *)

Inductive pyval : Type :=
  | PyNone
  | PyNum (x : Q)
  | PyStr (s : string).

Abbreviation pydict := (gmap string pyval).

(** [d.get(k)]: a missing key reads as [None]. *)
Definition dget (d : pydict) (k : string) : pyval := default PyNone (d !! k).

(** Truth value: [None], [0], [0.0] and the empty string are false. *)
Definition truthy (v : pyval) : bool :=
  match v with
  | PyNone => false
  | PyNum x => negb (Qeq_bool x 0)
  | PyStr s => negb (String.eqb s "")
  end.

(** [v or 0.0] *)
Definition or_zero (v : pyval) : pyval := if truthy v then v else PyNum 0.

(** [a + b]: numbers add, strings concatenate, anything else raises. *)
Definition py_add (a b : pyval) : option pyval :=
  match a, b with
  | PyNum x, PyNum y => Some (PyNum (x + y))
  | PyStr s, PyStr t => Some (PyStr (s +:+ t))
  | _, _ => None
  end.

(** [a >= t], [a > t] and [a < t] against a number [t]: raise unless [a] is
    a number. *)
Definition py_ge (a : pyval) (t : Q) : option bool :=
  match a with PyNum x => Some (Qle_bool t x) | _ => None end.

Definition num_gt (x t : Q) : bool := negb (Qle_bool x t).
Definition num_ge (x t : Q) : bool := Qle_bool t x.
Definition num_lt (x t : Q) : bool := negb (Qle_bool t x).

(** [isinstance(v, (int, float))] *)
Definition is_number (v : pyval) : bool :=
  match v with PyNum _ => true | _ => false end.

(** [code in (n1, n2, ...)]: equality with one of the integers. *)
Definition code_in (code : pyval) (ns : list Z) : bool :=
  match code with
  | PyNum x => existsb (fun n => Qeq_bool x (inject_Z n)) ns
  | _ => false
  end.

(** [a or b] on conditions that may raise; [b] is evaluated only when [a]
    is false. *)
Definition or_else (a b : option bool) : option bool :=
  match a with
  | Some true => Some true
  | Some false => b
  | None => None
  end.

(** ** Fixed-point formatting, [f"{x:.Nf}"]

    The decimal expansion with [d] fractional digits nearest to the value,
    ties to the even digit, a sign for negative values. *)

Definition round_half_even (a m : Z) : Z :=
  let q := a / m in
  let r := a mod m in
  if 2 * r <? m then q
  else if m <? 2 * r then q + 1
  else if Z.even q then q else q + 1.

Definition decimal (n : Z) : string :=
  NilEmpty.string_of_uint (N.to_uint (Z.to_N n)).

Fixpoint zeros (n : nat) : string :=
  match n with O => "" | S k => "0" +:+ zeros k end.

Definition pad_left (d : nat) (s : string) : string :=
  zeros (d - String.length s) +:+ s.

Definition format_f (d : nat) (x : Q) : string :=
  let unit := 10 ^ Z.of_nat d in
  let scaled := round_half_even (Z.abs (Qnum x) * unit) (Zpos (Qden x)) in
  (if Qnum x <? 0 then "-" else "")
  +:+ decimal (scaled / unit)
  +:+ match d with
      | O => ""
      | S _ => "." +:+ pad_left d (decimal (scaled mod unit))
      end.

(** [f"{v:.Nf}"] raises on [None] and on strings. *)
Definition py_format_f (d : nat) (v : pyval) : option string :=
  match v with PyNum x => Some (format_f d x) | _ => None end.

(** ** Safety policy *)

Inductive FogPolicy : Type := FogScore | FogWarn | FogCaution.

Record SafetyPolicy : Type := {
  thunderstorm_hard_stop : bool;
  wind_mod : Q;
  wind_strong : Q;
  gust_mod : Q;
  gust_strong : Q;
  precip_mod : Q;
  precip_heavy : Q;
  wave_moderate : Q;
  wave_elevated : Q;
  wave_high : Q;
  swell_notable : Q;
  swell_large : Q;
  long_period_s : Q;
  score_fog_realtime : Z;
  score_fog_forecast : Z;
  score_wind_strong : Z;
  score_wind_mod : Z;
  score_precip_heavy : Z;
  score_precip_mod : Z;
  score_wave_high : Z;
  score_wave_elevated : Z;
  score_wave_moderate : Z;
  score_swell_large : Z;
  score_swell_notable : Z;
  score_surge_long_period : Z;
  score_missing_waves : Z;
  band_caution_min : Z;
  band_unsafe_min : Z
}.

(** [SafetyPolicy()] with the defaults of the dataclass. *)
Definition default_policy : SafetyPolicy := {|
  thunderstorm_hard_stop := true;
  wind_mod := 20; wind_strong := 30; gust_mod := 35; gust_strong := 45;
  precip_mod := 2; precip_heavy := 5;
  wave_moderate := 1; wave_elevated := 15 # 10; wave_high := 2;
  swell_notable := 15 # 10; swell_large := 2; long_period_s := 10;
  score_fog_realtime := 10; score_fog_forecast := 20;
  score_wind_strong := 40; score_wind_mod := 15;
  score_precip_heavy := 10; score_precip_mod := 5;
  score_wave_high := 50; score_wave_elevated := 20; score_wave_moderate := 8;
  score_swell_large := 40; score_swell_notable := 15;
  score_surge_long_period := 10; score_missing_waves := 5;
  band_caution_min := 20; band_unsafe_min := 60
|}.

(** ** Verdicts and the running totals of an assessment *)

Inductive Status : Type := Safe | Caution | Unsafe | Unknown.

Record verdict : Type := {
  v_status : Status;
  v_score : option Z;
  v_reasons : list string;
  v_tips : list string
}.

(** The local variables [score], [hard_unsafe], [reasons] and [tips]. *)
Record state : Type := {
  score : Z;
  hard_unsafe : bool;
  reasons : list string;
  tips : list string
}.

Definition init : state :=
  {| score := 0; hard_unsafe := false; reasons := []; tips := [] |}.

Definition add_score (w : Z) (st : state) : state :=
  {| score := score st + w; hard_unsafe := hard_unsafe st;
     reasons := reasons st; tips := tips st |}.

Definition floor_score (w : Z) (st : state) : state :=
  {| score := Z.max (score st) w; hard_unsafe := hard_unsafe st;
     reasons := reasons st; tips := tips st |}.

Definition set_hard_unsafe (st : state) : state :=
  {| score := score st; hard_unsafe := true;
     reasons := reasons st; tips := tips st |}.

Definition add_reason (r : string) (st : state) : state :=
  {| score := score st; hard_unsafe := hard_unsafe st;
     reasons := reasons st ++ [r]; tips := tips st |}.

Definition add_tip (t : string) (st : state) : state :=
  {| score := score st; hard_unsafe := hard_unsafe st;
     reasons := reasons st; tips := tips st ++ [t] |}.

(** ** [RiskEngine._map_status] *)

Definition _map_status (score : Z) (hard_unsafe : bool) (policy : SafetyPolicy)
  : Status :=
  if hard_unsafe then Unsafe
  else if band_unsafe_min policy <=? score then Unsafe
  else if band_caution_min policy <=? score then Caution
  else Safe.

(** ** [RiskEngine._dedupe] *)

Fixpoint dedupe_from (seen : gset string) (seq : list string) : list string :=
  match seq with
  | [] => []
  | s :: rest =>
      if decide (s ∈ seen) then dedupe_from seen rest
      else s :: dedupe_from ({[s]} ∪ seen) rest
  end.

Definition _dedupe (seq : list string) : list string := dedupe_from ∅ seq.

(** The dictionary returned by both assessments. *)
Definition finish (policy : SafetyPolicy) (st : state) : verdict :=
  {| v_status := _map_status (score st) (hard_unsafe st) policy;
     v_score := Some (if hard_unsafe st then 100 else score st);
     v_reasons := _dedupe (reasons st);
     v_tips := _dedupe (tips st) |}.

(** ** [RiskEngine.assess_realtime] *)

(** The reading: [weather] and [marine] are dictionaries, or absent. *)
Record reading : Type := {
  weather : option pydict;
  marine : option pydict
}.

Module Realtime.

(** Thunderstorm *)
Definition thunderstorm (policy : SafetyPolicy) (code : pyval) (st : state)
  : state :=
  if thunderstorm_hard_stop policy && code_in code [95; 96; 99] then
    set_hard_unsafe (add_reason "Thunderstorm in area (lightning risk)." st)
  else st.

(** Fog *)
Definition fog_reason : string :=
  "Fog reduces surface visibility — higher boat collision risk.".
Definition fog_tip : string :=
  "Use dive flag + SMB; delay until fog clears or add surface support.".

Definition fog (policy : SafetyPolicy) (fog_policy : FogPolicy)
  (code : pyval) (st : state) : state :=
  if code_in code [45; 48] then
    let st := add_tip fog_tip (add_reason fog_reason st) in
    match fog_policy with
    | FogScore => add_score (score_fog_realtime policy) st
    | FogCaution => floor_score (band_caution_min policy) st
    | FogWarn => st
    end
  else st.

(** Wind *)
Definition wind_rule (policy : SafetyPolicy) (wind gust : pyval) (st : state)
  : option state :=
  strong ← or_else (py_ge wind (wind_strong policy))
                   (py_ge gust (gust_strong policy));
  if strong : bool then
    w ← py_format_f 0 wind;
    g ← py_format_f 0 gust;
    Some (add_score (score_wind_strong policy)
           (add_tip "Expect chop; consider sheltered site or postponing."
             (add_reason
                ("Strong wind/gusts (" +:+ w +:+ "/" +:+ g +:+ " km/h).") st)))
  else
    moderate ← or_else (py_ge wind (wind_mod policy))
                       (py_ge gust (gust_mod policy));
    if moderate : bool then
      w ← py_format_f 0 wind;
      g ← py_format_f 0 gust;
      Some (add_score (score_wind_mod policy)
             (add_tip "Prefer protected entry/exit; monitor drift."
               (add_reason
                  ("Moderate wind/gusts (" +:+ w +:+ "/" +:+ g +:+ " km/h).")
                  st)))
    else Some st.

(** Precip *)
Definition precip_rule (policy : SafetyPolicy) (precip : pyval) (st : state)
  : option state :=
  heavy ← py_ge precip (precip_heavy policy);
  if heavy : bool then
    s ← py_format_f 1 precip;
    Some (add_score (score_precip_heavy policy)
           (add_reason
              ("Heavy rain (" +:+ s +:+ " mm/hr) may reduce vis/runoff.") st))
  else
    moderate ← py_ge precip (precip_mod policy);
    if moderate : bool then
      s ← py_format_f 1 precip;
      Some (add_score (score_precip_mod policy)
             (add_reason ("Moderate rain (" +:+ s +:+ " mm/hr).") st))
    else Some st.

(** Sea state: wave height *)
Definition missing_waves_reason : string :=
  "Wave height unavailable — incomplete sea-state assessment.".

Definition waves (policy : SafetyPolicy) (wave_h : pyval) (st : state)
  : state :=
  match wave_h with
  | PyNum x =>
      if num_gt x (wave_high policy) then
        add_score (score_wave_high policy)
          (add_tip "Postpone or choose very sheltered site."
            (add_reason
               ("High waves (" +:+ format_f 2 x
                +:+ " m) — unsafe entries likely.") st))
      else if num_gt x (wave_elevated policy) then
        add_score (score_wave_elevated policy)
          (add_tip "Assess surge at entry; plan alternate exits."
            (add_reason ("Elevated waves (" +:+ format_f 2 x +:+ " m).") st))
      else if num_gt x (wave_moderate policy) then
        add_score (score_wave_moderate policy)
          (add_reason ("Moderate waves (" +:+ format_f 2 x +:+ " m).") st)
      else st
  | _ =>
      add_score (score_missing_waves policy)
        (add_reason missing_waves_reason st)
  end.

(** Sea state: swell *)
Definition swell (policy : SafetyPolicy) (swell_h swell_p : pyval)
  (st : state) : state :=
  match swell_h, swell_p with
  | PyNum h, PyNum per =>
      let at_ := format_f 2 h +:+ " m @ " +:+ format_f 0 per +:+ "s)" in
      if num_ge h (swell_large policy) then
        add_score (score_swell_large policy)
          (add_reason ("Large swell (" +:+ at_ +:+ ".") st)
      else if num_ge h (swell_notable policy) then
        add_score (score_swell_notable policy)
          (add_reason ("Notable swell (" +:+ at_ +:+ ".") st)
      else if num_ge h 1 && num_ge per (long_period_s policy) then
        add_score (score_surge_long_period policy)
          (add_reason ("Long-period swell (" +:+ at_ +:+ " → surge risk.")
             st)
      else st
  | _, _ => st
  end.

(** Comfort (non-scoring) *)
Definition comfort (air_c : pyval) (st : state) : state :=
  match air_c with
  | PyNum t =>
      if num_lt t 16 then
        add_tip "Cold air — consider thicker wetsuit, hood, gloves." st
      else st
  | _ => st
  end.

(** The body of [assess_realtime] up to the final [_map_status]: the
    running totals when the last rule has been evaluated. *)
Definition rules (r : reading) (policy : SafetyPolicy)
  (fog_policy : FogPolicy) : option state :=
  let wx := default ∅ (weather r) in
  let sea := default ∅ (marine r) in
  let code := dget wx "weather_code" in
  let wind := or_zero (dget wx "wind_speed_10m_kmh") in
  let gust := or_zero (dget wx "wind_gusts_10m_kmh") in
  precip ← py_add (or_zero (dget wx "precipitation_mm"))
                  (or_zero (dget wx "rain_mm"));
  let st := thunderstorm policy code init in
  let st := fog policy fog_policy code st in
  st ← wind_rule policy wind gust st;
  st ← precip_rule policy precip st;
  let st := waves policy (dget sea "wave_height_m") st in
  let st := swell policy (dget sea "swell_wave_height_m")
              (dget sea "swell_wave_period_s") st in
  let st := comfort (dget wx "temperature_2m_c") st in
  Some st.

End Realtime.

Definition assess_realtime (r : reading) (policy : SafetyPolicy)
  (fog_policy : FogPolicy) : option verdict :=
  finish policy <$> Realtime.rules r policy fog_policy.

(** The scenario of a moderate breeze over a moderate sea. *)
Definition breeze_reading : reading := {|
  weather := Some (<["weather_code" := PyNum 3]>
                  (<["wind_speed_10m_kmh" := PyNum 25]>
                  (<["wind_gusts_10m_kmh" := PyNum 20]>
                  (<["precipitation_mm" := PyNum 0]>
                  (<["rain_mm" := PyNum 0]> ∅)))));
  marine := Some (<["wave_height_m" := PyNum (12 # 10)]> ∅)
|}.

(** ** [RiskEngine.assess_forecast] *)

Record forecast : Type := {
  hourly : list pydict;
  marine_daily : option pydict
}.

(** One iteration of a loop either falls through to the next one or leaves
    the loop with [break]. *)
Inductive flow : Type :=
  | Continue (st : state)
  | Break (st : state).

Module Forecast.

Definition thunderstorm_reason : string :=
  "Thunderstorm forecast (lightning risk).".

Definition fog_reason : string :=
  "Fog possible at some hours (surface visibility risk).".

Definition fog (policy : SafetyPolicy) (fog_policy : FogPolicy)
  (code : pyval) (st : state) : state :=
  if code_in code [45; 48] then
    let st := add_reason fog_reason st in
    match fog_policy with
    | FogScore => add_score (score_fog_forecast policy) st
    | FogCaution => floor_score (band_caution_min policy) st
    | FogWarn => st
    end
  else st.

Definition wind_rule (policy : SafetyPolicy) (wind gust : pyval) (st : state)
  : option state :=
  strong ← or_else (py_ge wind (wind_strong policy))
                   (py_ge gust (gust_strong policy));
  if strong : bool then
    w ← py_format_f 0 wind;
    g ← py_format_f 0 gust;
    Some (add_score (score_wind_strong policy)
           (add_reason
              ("Strong winds forecast (" +:+ w +:+ "/" +:+ g +:+ " km/h).")
              st))
  else
    moderate ← or_else (py_ge wind (wind_mod policy))
                       (py_ge gust (gust_mod policy));
    if moderate : bool then
      w ← py_format_f 0 wind;
      g ← py_format_f 0 gust;
      Some (add_score (score_wind_mod policy)
             (add_reason
                ("Moderate winds forecast (" +:+ w +:+ "/" +:+ g
                 +:+ " km/h).") st))
    else Some st.

Definition precip_rule (policy : SafetyPolicy) (precip : pyval) (st : state)
  : option state :=
  heavy ← py_ge precip (precip_heavy policy);
  if heavy : bool then
    s ← py_format_f 1 precip;
    Some (add_score (score_precip_heavy policy)
           (add_reason ("Heavy rain forecast (" +:+ s +:+ " mm/hr).") st))
  else
    moderate ← py_ge precip (precip_mod policy);
    if moderate : bool then
      s ← py_format_f 1 precip;
      Some (add_score (score_precip_mod policy)
             (add_reason ("Moderate rain forecast (" +:+ s +:+ " mm/hr).")
                st))
    else Some st.

(** The body of [for h in hourly]. *)
Definition hour (policy : SafetyPolicy) (fog_policy : FogPolicy)
  (h : pydict) (st : state) : option flow :=
  let code := dget h "weather_code" in
  let wind := or_zero (dget h "wind_speed_10m_kmh") in
  let gust := or_zero (dget h "wind_gusts_10m_kmh") in
  precip ← py_add (or_zero (dget h "precipitation_mm"))
                  (or_zero (dget h "rain_mm"));
  if thunderstorm_hard_stop policy && code_in code [95; 96; 99] then
    Some (Break (set_hard_unsafe (add_reason thunderstorm_reason st)))
  else
    let st := fog policy fog_policy code st in
    st ← wind_rule policy wind gust st;
    st ← precip_rule policy precip st;
    Some (Continue st).

(** Scan hours *)
Fixpoint scan (policy : SafetyPolicy) (fog_policy : FogPolicy)
  (hours : list pydict) (st : state) : option state :=
  match hours with
  | [] => Some st
  | h :: rest =>
      match hour policy fog_policy h st with
      | None => None
      | Some (Break st') => Some st'
      | Some (Continue st') => scan policy fog_policy rest st'
      end
  end.

(** Marine (daily max/summary): wave height *)
Definition missing_waves_reason : string :=
  "Wave height (forecast) unavailable — incomplete sea state.".

Definition waves (policy : SafetyPolicy) (wave_h : pyval) (st : state)
  : state :=
  match wave_h with
  | PyNum x =>
      if num_gt x (wave_high policy) then
        add_score (score_wave_high policy)
          (add_reason ("High waves up to " +:+ format_f 2 x +:+ " m.") st)
      else if num_gt x (wave_elevated policy) then
        add_score (score_wave_elevated policy)
          (add_reason ("Elevated waves up to " +:+ format_f 2 x +:+ " m.")
             st)
      else if num_gt x (wave_moderate policy) then
        add_score (score_wave_moderate policy)
          (add_reason ("Moderate waves up to " +:+ format_f 2 x +:+ " m.")
             st)
      else st
  | _ =>
      add_score (score_missing_waves policy)
        (add_reason missing_waves_reason st)
  end.

(** Marine (daily max/summary): swell *)
Definition swell (policy : SafetyPolicy) (swell_h : pyval) (st : state)
  : state :=
  match swell_h with
  | PyNum h =>
      if num_ge h (swell_large policy) then
        add_score (score_swell_large policy)
          (add_reason
             ("Swell up to " +:+ format_f 2 h +:+ " m (surge risk).") st)
      else if num_ge h (swell_notable policy) then
        add_score (score_swell_notable policy)
          (add_reason ("Swell up to " +:+ format_f 2 h +:+ " m.") st)
      else st
  | _ => st
  end.

Definition marine_rules (policy : SafetyPolicy) (marine : pydict)
  (st : state) : state :=
  swell policy (dget marine "swell_wave_height_max_m")
    (waves policy (dget marine "wave_height_max_m") st).

(** The verdict of an empty hourly sequence. *)
Definition no_hours : verdict :=
  {| v_status := Unknown; v_score := None;
     v_reasons := ["No hourly forecast available."]; v_tips := [] |}.

End Forecast.

Definition assess_forecast (f : forecast) (policy : SafetyPolicy)
  (fog_policy : FogPolicy) : option verdict :=
  let marine := default ∅ (marine_daily f) in
  match hourly f with
  | [] => Some Forecast.no_hours
  | _ =>
      st ← Forecast.scan policy fog_policy (hourly f) init;
      Some (finish policy (Forecast.marine_rules policy marine st))
  end.

(** ** Vocabulary of the statements *)

(** The weather code the rules read. *)
Definition weather_code (r : reading) : pyval :=
  dget (default ∅ (weather r)) "weather_code".

Definition is_thunderstorm (code : pyval) : bool := code_in code [95; 96; 99].
Definition is_fog (code : pyval) : bool := code_in code [45; 48].

(** A value that is [None] or a number. *)
Definition no_text (v : pyval) : bool :=
  match v with PyStr _ => false | _ => true end.

(** The wind, gust, precipitation and rain entries of a weather dictionary
    are numbers or absent, as the provider delivers them. *)
Definition numeric_weather (wx : pydict) : bool :=
  no_text (dget wx "wind_speed_10m_kmh")
  && no_text (dget wx "wind_gusts_10m_kmh")
  && no_text (dget wx "precipitation_mm")
  && no_text (dget wx "rain_mm").

(** The policy with another hard-stop flag. *)
Definition with_hard_stop (b : bool) (p : SafetyPolicy) : SafetyPolicy := {|
  thunderstorm_hard_stop := b;
  wind_mod := wind_mod p; wind_strong := wind_strong p;
  gust_mod := gust_mod p; gust_strong := gust_strong p;
  precip_mod := precip_mod p; precip_heavy := precip_heavy p;
  wave_moderate := wave_moderate p; wave_elevated := wave_elevated p;
  wave_high := wave_high p;
  swell_notable := swell_notable p; swell_large := swell_large p;
  long_period_s := long_period_s p;
  score_fog_realtime := score_fog_realtime p;
  score_fog_forecast := score_fog_forecast p;
  score_wind_strong := score_wind_strong p;
  score_wind_mod := score_wind_mod p;
  score_precip_heavy := score_precip_heavy p;
  score_precip_mod := score_precip_mod p;
  score_wave_high := score_wave_high p;
  score_wave_elevated := score_wave_elevated p;
  score_wave_moderate := score_wave_moderate p;
  score_swell_large := score_swell_large p;
  score_swell_notable := score_swell_notable p;
  score_surge_long_period := score_surge_long_period p;
  score_missing_waves := score_missing_waves p;
  band_caution_min := band_caution_min p;
  band_unsafe_min := band_unsafe_min p
|}.

(** Every rule except the fog floor only adds to the running totals: it
    maps [st] to [combine st d] for a contribution [d] that does not depend
    on [st]. *)
Definition combine (a b : state) : state :=
  {| score := score a + score b;
     hard_unsafe := hard_unsafe a || hard_unsafe b;
     reasons := reasons a ++ reasons b;
     tips := tips a ++ tips b |}.

(** The rules of [assess_realtime] that follow the fog rule. *)
Definition rt_tail (policy : SafetyPolicy) (wx sea : pydict) (precip : pyval)
  (st : state) : option state :=
  st ← Realtime.wind_rule policy (or_zero (dget wx "wind_speed_10m_kmh"))
         (or_zero (dget wx "wind_gusts_10m_kmh")) st;
  st ← Realtime.precip_rule policy precip st;
  Some (Realtime.comfort (dget wx "temperature_2m_c")
         (Realtime.swell policy (dget sea "swell_wave_height_m")
            (dget sea "swell_wave_period_s")
            (Realtime.waves policy (dget sea "wave_height_m") st))).

(** The verdict of a hard stop over the verdict [v] of the other rules. *)
Definition hard_stop_over (reason : string) (v : verdict) : verdict :=
  {| v_status := Unsafe; v_score := Some 100;
     v_reasons := reason :: v_reasons v; v_tips := v_tips v |}.

(** The first character of [s] is one of the characters of [cs]. *)
Definition head_among (cs : string) (s : string) : bool :=
  match s with
  | EmptyString => false
  | String c _ => existsb (Ascii.eqb c) (list_ascii_of_string cs)
  end.

(** First characters of the reasons and of the tips that the real-time
    rules after the fog rule can append. *)
Definition rt_reason_heads : string := "SMHEWLN".
Definition rt_tip_heads : string := "EPAC".

Definition heads_ok (st : state) : Prop :=
  Forall (λ s, head_among rt_reason_heads s = true) (reasons st)
  ∧ Forall (λ s, head_among rt_tip_heads s = true) (tips st).

(** An hour that triggers the moderate-wind rule of the forecast scan and
    no other rule: no hard stop, no fog, wind and gusts below the strong
    thresholds and one of them at a moderate threshold, the summed
    precipitation below both thresholds. *)
Definition moderate_wind_only (policy : SafetyPolicy) (h : pydict) : bool :=
  negb (thunderstorm_hard_stop policy
        && is_thunderstorm (dget h "weather_code"))
  && negb (is_fog (dget h "weather_code"))
  && match or_zero (dget h "wind_speed_10m_kmh"),
           or_zero (dget h "wind_gusts_10m_kmh"),
           py_add (or_zero (dget h "precipitation_mm"))
                  (or_zero (dget h "rain_mm")) with
     | PyNum w, PyNum g, Some (PyNum q) =>
         negb (num_ge w (wind_strong policy))
         && negb (num_ge g (gust_strong policy))
         && (num_ge w (wind_mod policy) || num_ge g (gust_mod policy))
         && negb (num_ge q (precip_heavy policy))
         && negb (num_ge q (precip_mod policy))
     | _, _, _ => false
     end.

(** The wind speed and the gusts of an hour as the reasons print them. *)
Definition wind_shown (h : pydict) : option (string * string) :=
  w ← py_format_f 0 (or_zero (dget h "wind_speed_10m_kmh"));
  g ← py_format_f 0 (or_zero (dget h "wind_gusts_10m_kmh"));
  Some (w, g).

(** The score of a verdict as the data model of the specification words
    it: an integer from 0 to 100, or null exactly for status Unknown. *)
Definition score_in_range (v : verdict) : Prop :=
  match v_score v with
  | Some s => 0 <= s <= 100 ∧ v_status v ≠ Unknown
  | None => v_status v = Unknown
  end.

(** The same without the upper bound. *)
Definition score_not_negative (v : verdict) : Prop :=
  match v_score v with
  | Some s => 0 <= s ∧ v_status v ≠ Unknown
  | None => v_status v = Unknown
  end.

(** No weight of the policy is negative. *)
Definition nonneg_weights (p : SafetyPolicy) : bool :=
  forallb (Z.leb 0)
    [score_fog_realtime p; score_fog_forecast p; score_wind_strong p;
     score_wind_mod p; score_precip_heavy p; score_precip_mod p;
     score_wave_high p; score_wave_elevated p; score_wave_moderate p;
     score_swell_large p; score_swell_notable p; score_surge_long_period p;
     score_missing_waves p].

(** Strong wind over high waves and a large swell. *)
Definition rough_reading : reading := {|
  weather := Some (<["weather_code" := PyNum 3]>
                  (<["wind_speed_10m_kmh" := PyNum 30]> ∅));
  marine := Some (<["wave_height_m" := PyNum (25 # 10)]>
                 (<["swell_wave_height_m" := PyNum (25 # 10)]>
                 (<["swell_wave_period_s" := PyNum 8]> ∅)))
|}.

(** A reading without any entry. *)
Definition empty_reading : reading := {| weather := None; marine := None |}.

(** A policy that rewards a missing wave height. *)
Definition rebate_policy : SafetyPolicy := {|
  thunderstorm_hard_stop := true;
  wind_mod := 20; wind_strong := 30; gust_mod := 35; gust_strong := 45;
  precip_mod := 2; precip_heavy := 5;
  wave_moderate := 1; wave_elevated := 15 # 10; wave_high := 2;
  swell_notable := 15 # 10; swell_large := 2; long_period_s := 10;
  score_fog_realtime := 10; score_fog_forecast := 20;
  score_wind_strong := 40; score_wind_mod := 15;
  score_precip_heavy := 10; score_precip_mod := 5;
  score_wave_high := 50; score_wave_elevated := 20; score_wave_moderate := 8;
  score_swell_large := 40; score_swell_notable := 15;
  score_surge_long_period := 10; score_missing_waves := -5;
  band_caution_min := 20; band_unsafe_min := 60
|}.

(** The reading without its weather code. *)
Definition without_code (r : reading) : reading :=
  {| weather := delete "weather_code" <$> weather r; marine := marine r |}.

(** What the fog rule of [assess_realtime] adds to the totals when it
    fires on a running score of 0. *)
Definition fog_points (policy : SafetyPolicy) (fog_policy : FogPolicy) : Z :=
  match fog_policy with
  | FogScore => score_fog_realtime policy
  | FogCaution => Z.max 0 (band_caution_min policy)
  | FogWarn => 0
  end.

Definition fog_share (policy : SafetyPolicy) (fog_policy : FogPolicy) : state :=
  {| score := fog_points policy fog_policy; hard_unsafe := false;
     reasons := [Realtime.fog_reason]; tips := [Realtime.fog_tip] |}.

(** The reading with the marine entry [k] set to [v]. *)
Definition with_marine (k : string) (v : pyval) (r : reading) : reading :=
  {| weather := weather r;
     marine := Some (<[k := v]> (default ∅ (marine r))) |}.

(** A wave height above none of the thresholds, and a swell at none of
    them: no wave rule and no swell rule fires. *)
Definition calm_waves (policy : SafetyPolicy) (x : Q) : bool :=
  negb (num_gt x (wave_high policy))
  && negb (num_gt x (wave_elevated policy))
  && negb (num_gt x (wave_moderate policy)).

Definition calm_swell (policy : SafetyPolicy) (h per : Q) : bool :=
  negb (num_ge h (swell_large policy))
  && negb (num_ge h (swell_notable policy))
  && negb (num_ge h 1 && num_ge per (long_period_s policy)).

(** ** The hourly rules as the specification words them

    "Each hour's weather code/wind/gust/precipitation contributes via the
    same rule shapes as real-time (steps 1-4), with one difference: the fog
    weight used is the fog-forecast weight."  Steps 1, 3 and 4 are the rules
    of [assess_realtime]; step 2 is its fog rule with the other weight. *)
Module Spec.

Definition fog (weight : Z) (policy : SafetyPolicy) (fog_policy : FogPolicy)
  (code : pyval) (st : state) : state :=
  if code_in code [45; 48] then
    let st := add_tip Realtime.fog_tip
                (add_reason Realtime.fog_reason st) in
    match fog_policy with
    | FogScore => add_score weight st
    | FogCaution => floor_score (band_caution_min policy) st
    | FogWarn => st
    end
  else st.

Definition hour_rules (policy : SafetyPolicy) (fog_policy : FogPolicy)
  (h : pydict) (st : state) : option state :=
  let code := dget h "weather_code" in
  let wind := or_zero (dget h "wind_speed_10m_kmh") in
  let gust := or_zero (dget h "wind_gusts_10m_kmh") in
  precip ← py_add (or_zero (dget h "precipitation_mm"))
                  (or_zero (dget h "rain_mm"));
  let st := Realtime.thunderstorm policy code st in
  let st := fog (score_fog_forecast policy) policy fog_policy code st in
  st ← Realtime.wind_rule policy wind gust st;
  Realtime.precip_rule policy precip st.

End Spec.

(** The totals after one hour of the scan, whether the loop goes on or
    not. *)
Definition after_hour (fl : flow) : state :=
  match fl with Continue st | Break st => st end.

(** Two running totals agree on everything but the wording: the same
    score, the same hard-stop flag, as many reasons. *)
Definition same_scoring (a b : state) : Prop :=
  score a = score b
  ∧ hard_unsafe a = hard_unsafe b
  ∧ length (reasons a) = length (reasons b).

(** An hour of moderate wind, and an hour of thunderstorm and strong wind. *)
Definition breezy_hour : pydict :=
  <["weather_code" := PyNum 3]> (<["wind_speed_10m_kmh" := PyNum 25]> ∅).

Definition stormy_hour : pydict :=
  <["weather_code" := PyNum 95]> (<["wind_speed_10m_kmh" := PyNum 30]> ∅).

(** Sample inputs: a thunderstorm over a strong wind, fog over a moderate
    wind, a second hour of moderate wind that prints like [breezy_hour], and
    three forecasts. *)
Definition storm_reading : reading := {|
  weather := Some (<["weather_code" := PyNum 95]>
                  (<["wind_speed_10m_kmh" := PyNum 30]> ∅));
  marine := None
|}.

Definition fog_reading : reading := {|
  weather := Some (<["weather_code" := PyNum 45]>
                  (<["wind_speed_10m_kmh" := PyNum 25]> ∅));
  marine := Some (<["wave_height_m" := PyNum (1 # 2)]> ∅)
|}.

Definition breezy_hour_2 : pydict :=
  <["weather_code" := PyNum 2]> (<["wind_speed_10m_kmh" := PyNum (252 # 10)]> ∅).

Definition storm_forecast : forecast := {|
  hourly := [breezy_hour] ++ stormy_hour :: [breezy_hour; breezy_hour_2];
  marine_daily := None
|}.

Definition breezy_forecast : forecast := {|
  hourly := [breezy_hour; breezy_hour_2; breezy_hour];
  marine_daily := Some (<["wave_height_max_m" := PyNum (12 # 10)]> ∅)
|}.

(** The totals carried by a [flow], transformed. *)
Definition flow_map (f : state → state) (fl : flow) : flow :=
  match fl with
  | Continue st => Continue (f st)
  | Break st => Break (f st)
  end.

(** The breeze scenario under the abbreviated key names of the interface
    description ([wind_speed_kmh], [wind_gusts_kmh]), which the engine does
    not read. *)
Definition breeze_reading_short_keys : reading := {|
  weather := Some (<["weather_code" := PyNum 3]>
                  (<["wind_speed_kmh" := PyNum 25]>
                  (<["wind_gusts_kmh" := PyNum 20]>
                  (<["precipitation_mm" := PyNum 0]>
                  (<["rain_mm" := PyNum 0]> ∅)))));
  marine := Some (<["wave_height_m" := PyNum (12 # 10)]> ∅)
|}.

(** * The provider client: a shallow embedding of [DiveWiseWeather]
    (divewise_weather.py) and of the two routes of app.py

    - A response object of the provider is a [payload]: its scalar entries
      ([latitude], [reason], ...), its [current] object of scalars and its
      [hourly] and [daily] objects of arrays, each present or not.  An array
      that is [null] reads like a missing one (the client takes [or []]).
    - The network is an input: [requests.get] has raised, or has answered
      with a status code and a body that is JSON or not.
    - [datetime.strptime] and [datetime.fromisoformat], followed by
      [.date()], are parameters [strptime] and [fromisoformat] into a type
      [date] with decidable equality; [None] is their [ValueError]. *)

Abbreviation series := (gmap string (list pyval)).

Record payload : Type := {
  p_top : pydict;
  p_current : option pydict;
  p_hourly : option series;
  p_daily : option series
}.

(** [if payload:], false for the object without entries. *)
Definition payload_truthy (d : payload) : bool :=
  negb (Nat.eqb (size (p_top d)) 0)
  || match p_current d with Some _ => true | None => false end
  || match p_hourly d with Some _ => true | None => false end
  || match p_daily d with Some _ => true | None => false end.

(** The exceptions that can leave the client and the engine. *)
Inductive exn : Type :=
  | OpenMeteoError
  | ValueError
  | TypeError
  | AttributeError.

Inductive result (A : Type) : Type :=
  | Ok (a : A)
  | Raise (e : exn).
Arguments Ok {A} a.
Arguments Raise {A} e.

(** What [requests.get(...)] followed by [r.json()] can do: raise a
    [requests.RequestException], or answer with a status code and a body
    that is a JSON object or not JSON at all.  On a body that is not JSON,
    [r.json()] raises the [JSONDecodeError] of requests, which is a
    [RequestException] in the versions the file requires (2.28 and later);
    it is only called on status 200. *)
Inductive http : Type :=
  | RequestException
  | Response (status_code : Z) (body : option payload).

(** [WMO_CODE] *)
Definition WMO_CODE : list (Z * string) :=
  [(0, "Clear"); (1, "Mainly clear"); (2, "Partly cloudy"); (3, "Overcast");
   (45, "Fog"); (48, "Depositing rime fog");
   (51, "Light drizzle"); (53, "Moderate drizzle"); (55, "Dense drizzle");
   (56, "Freezing drizzle"); (57, "Dense freezing drizzle");
   (61, "Slight rain"); (63, "Moderate rain"); (65, "Heavy rain");
   (66, "Freezing rain"); (67, "Heavy freezing rain");
   (71, "Slight snow"); (73, "Moderate snow"); (75, "Heavy snow");
   (77, "Snow grains");
   (80, "Rain showers"); (81, "Moderate rain showers");
   (82, "Violent rain showers");
   (85, "Snow showers"); (86, "Heavy snow showers");
   (95, "Thunderstorm"); (96, "Thunderstorm with slight hail");
   (99, "Thunderstorm with heavy hail")].

(** [WMO_CODE.get(code)]: the label of the key equal to [code], or [None]. *)
Definition wmo_get (code : pyval) : pyval :=
  match code with
  | PyNum x =>
      match find (λ e : Z * string, Qeq_bool x (inject_Z e.1)) WMO_CODE with
      | Some e => PyStr e.2
      | None => PyNone
      end
  | _ => PyNone
  end.

(** [_get_json(url, params, allow_fail)] on what the network did: the data,
    [None] (as [Ok None]), or [OpenMeteoError]. *)
Definition _get_json (r : http) (allow_fail : bool) : result (option payload) :=
  match r with
  | RequestException => if allow_fail then Ok None else Raise OpenMeteoError
  | Response status_code body =>
      if negb (status_code =? 200) then
        if allow_fail then Ok None else Raise OpenMeteoError
      else
        match body with
        | None => if allow_fail then Ok None else Raise OpenMeteoError
        | Some data =>
            if truthy (dget (p_top data) "reason") then
              if allow_fail then Ok None else Raise OpenMeteoError
            else Ok (Some data)
        end
  end.

(** [_parse_current_weather] *)
Definition _parse_current_weather (payload : payload) : pydict :=
  let current := default ∅ (p_current payload) in
  list_to_map
    [("time", dget current "time");
     ("temperature_2m_c", dget current "temperature_2m");
     ("apparent_temperature_c", dget current "apparent_temperature");
     ("relative_humidity_pct", dget current "relative_humidity_2m");
     ("precipitation_mm", dget current "precipitation");
     ("rain_mm", dget current "rain");
     ("cloud_cover_pct", dget current "cloud_cover");
     ("wind_speed_10m_kmh", dget current "wind_speed_10m");
     ("wind_gusts_10m_kmh", dget current "wind_gusts_10m");
     ("wind_direction_10m_deg", dget current "wind_direction_10m");
     ("weather_code", dget current "weather_code");
     ("weather_text", wmo_get (dget current "weather_code"))].

(** [_parse_current_marine] *)
Definition _parse_current_marine (payload : payload) : pydict :=
  let current := default ∅ (p_current payload) in
  list_to_map
    [("time", dget current "time");
     ("wave_height_m", dget current "wave_height");
     ("wave_direction_deg", dget current "wave_direction");
     ("wave_period_s", dget current "wave_period");
     ("wind_wave_height_m", dget current "wind_wave_height");
     ("wind_wave_direction_deg", dget current "wind_wave_direction");
     ("wind_wave_period_s", dget current "wind_wave_period");
     ("swell_wave_height_m", dget current "swell_wave_height");
     ("swell_wave_direction_deg", dget current "swell_wave_direction");
     ("swell_wave_period_s", dget current "swell_wave_period")].

(** [daily.get(name) or []] and [hourly.get(name) or []] *)
Definition arr (d : series) (name : string) : list pyval :=
  default [] (d !! name).

(** [first] of [_parse_daily_weather]: [arr[0] if arr else None]. *)
Definition first (daily : series) (arr_name : string) : pyval :=
  default PyNone (head (arr daily arr_name)).

(** [_parse_daily_weather] *)
Definition _parse_daily_weather (payload : payload) : pydict :=
  let daily := default ∅ (p_daily payload) in
  list_to_map
    [("temperature_max_c", first daily "temperature_2m_max");
     ("temperature_min_c", first daily "temperature_2m_min");
     ("precipitation_sum_mm", first daily "precipitation_sum");
     ("rain_sum_mm", first daily "rain_sum");
     ("windspeed_10m_max_kmh", first daily "windspeed_10m_max");
     ("windgusts_10m_max_kmh", first daily "windgusts_10m_max");
     ("winddirection_10m_dominant_deg",
      first daily "winddirection_10m_dominant");
     ("uv_index_max", first daily "uv_index_max");
     ("shortwave_radiation_sum_MJ_m2", first daily "shortwave_radiation_sum");
     ("sunrise_local", first daily "sunrise");
     ("sunset_local", first daily "sunset")].

(** [[x for x in a if isinstance(x, (int, float))]] *)
Definition numbers (a : list pyval) : list Q :=
  omap (λ v, match v with PyNum x => Some x | _ => None end) a.

(** [max(vals)] and [min(vals)] of a list that is not empty: the first of
    the largest, of the smallest, elements. *)
Definition py_max (x : Q) (xs : list Q) : Q :=
  fold_left (λ m y, if num_gt y m then y else m) xs x.

Definition py_min (x : Q) (xs : list Q) : Q :=
  fold_left (λ m y, if num_lt y m then y else m) xs x.

(** [safe_max] and [safe_min] of [_aggregate_marine_day] *)
Definition safe_max (a : list pyval) : pyval :=
  match numbers a with
  | [] => PyNone
  | x :: xs => PyNum (py_max x xs)
  end.

Definition safe_min (a : list pyval) : pyval :=
  match numbers a with
  | [] => PyNone
  | x :: xs => PyNum (py_min x xs)
  end.

(** [_aggregate_marine_day] *)
Definition _aggregate_marine_day (payload : payload) : pydict :=
  let hourly := default ∅ (p_hourly payload) in
  list_to_map
    [("wave_height_max_m", safe_max (arr hourly "wave_height"));
     ("wave_height_min_m", safe_min (arr hourly "wave_height"));
     ("wind_wave_height_max_m", safe_max (arr hourly "wind_wave_height"));
     ("swell_wave_height_max_m", safe_max (arr hourly "swell_wave_height"));
     ("wave_period_max_s", safe_max (arr hourly "wave_period"))].

(** [ts.replace("Z", "+00:00")] *)
Fixpoint replace_Z (ts : string) : string :=
  match ts with
  | EmptyString => EmptyString
  | String c rest =>
      if Ascii.eqb c "Z" then "+00:00" +:+ replace_Z rest
      else String c (replace_Z rest)
  end.

(** [val(name, t)] of [_select_hourly_for_date]: [arr[t]], or [None] past
    the end of the array. *)
Definition val (hourly : series) (name : string) (t : nat) : pyval :=
  default PyNone (arr hourly name !! t).

(** The dictionary appended for the timestamp [ts] at index [i]. *)
Definition hour_at (hourly : series) (i : nat) (ts : pyval) : pydict :=
  list_to_map
    [("time", ts);
     ("temperature_2m_c", val hourly "temperature_2m" i);
     ("apparent_temperature_c", val hourly "apparent_temperature" i);
     ("precipitation_mm", val hourly "precipitation" i);
     ("rain_mm", val hourly "rain" i);
     ("cloud_cover_pct", val hourly "cloud_cover" i);
     ("wind_speed_10m_kmh", val hourly "wind_speed_10m" i);
     ("wind_gusts_10m_kmh", val hourly "wind_gusts_10m" i);
     ("wind_direction_10m_deg", val hourly "wind_direction_10m" i);
     ("weather_code", val hourly "weather_code" i);
     ("weather_text", wmo_get (val hourly "weather_code" i))].

(** The day of a timestamp: [fromisoformat(ts)], on [ValueError] a second
    attempt on [ts.replace("Z", "+00:00")], whose [ValueError] is raised; a
    timestamp that is not a string is a [TypeError]. *)
Definition day_of {date : Type} (fromisoformat : string → option date)
  (ts : pyval) : result date :=
  match ts with
  | PyStr s =>
      match fromisoformat s with
      | Some d => Ok d
      | None =>
          match fromisoformat (replace_Z s) with
          | Some d => Ok d
          | None => Raise ValueError
          end
      end
  | _ => Raise TypeError
  end.

(** [for i, ts in enumerate(times)], from index [i] on, with the hours
    appended so far. *)
Fixpoint select_loop {date : Type} `{EqDecision date}
  (fromisoformat : string → option date) (hourly : series)
  (target_day : date) (i : nat) (times : list pyval) (res : list pydict)
  : result (list pydict) :=
  match times with
  | [] => Ok res
  | ts :: rest =>
      match day_of fromisoformat ts with
      | Raise e => Raise e
      | Ok d =>
          select_loop fromisoformat hourly target_day (S i) rest
            (if decide (d = target_day) then res ++ [hour_at hourly i ts]
             else res)
      end
  end.

(** [_select_hourly_for_date] *)
Definition _select_hourly_for_date {date : Type} `{EqDecision date}
  (fromisoformat : string → option date) (payload : payload)
  (target_day : date) : result (list pydict) :=
  let hourly := default ∅ (p_hourly payload) in
  select_loop fromisoformat hourly target_day 0 (arr hourly "time") [].

(** [get_realtime], on what the two requests did.  The coordinate of the
    result is left out: the reading holds the two entries the engine and the
    properties look at. *)
Definition get_realtime (include_marine : bool) (weather_http marine_http : http)
  : result reading :=
  match _get_json weather_http false with
  | Raise e => Raise e
  | Ok None => Raise AttributeError
  | Ok (Some weather) =>
      let wx := _parse_current_weather weather in
      if include_marine then
        match _get_json marine_http true with
        | Raise e => Raise e
        | Ok marine =>
            Ok {| weather := Some wx;
                  marine :=
                    match marine with
                    | Some m =>
                        if payload_truthy m
                        then Some (_parse_current_marine m) else None
                    | None => None
                    end |}
        end
      else Ok {| weather := Some wx; marine := None |}
  end.

(** The result of [get_forecast_for_date]: the forecast the engine reads,
    and the daily summary. *)
Record day_forecast : Type := {
  daily : pydict;
  window : forecast
}.

(** [get_forecast_for_date], on what the two requests did. *)
Definition get_forecast_for_date {date : Type} `{EqDecision date}
  (strptime fromisoformat : string → option date)
  (include_marine : bool) (date_str : string)
  (weather_http marine_http : http) : result day_forecast :=
  match strptime date_str with
  | None => Raise ValueError
  | Some target =>
      match _get_json weather_http false with
      | Raise e => Raise e
      | Ok None => Raise AttributeError
      | Ok (Some weather) =>
          let daily := _parse_daily_weather weather in
          match _select_hourly_for_date fromisoformat weather target with
          | Raise e => Raise e
          | Ok hours =>
              if include_marine then
                match _get_json marine_http true with
                | Raise e => Raise e
                | Ok marine =>
                    Ok {| daily := daily;
                          window :=
                            {| hourly := hours;
                               marine_daily :=
                                 match marine with
                                 | Some m =>
                                     if payload_truthy m
                                     then Some (_aggregate_marine_day m)
                                     else None
                                 | None => None
                                 end |} |}
                end
              else
                Ok {| daily := daily;
                      window := {| hourly := hours; marine_daily := None |} |}
          end
      end
  end.

(** ** The routes of app.py

    What a handler returns, or the status of the error it ends in: the
    [HTTPException] it raises, or 500 for an exception nobody catches. *)
Inductive response (A : Type) : Type :=
  | Http200 (body : A)
  | HttpError (status : Z).
Arguments Http200 {A} body.
Arguments HttpError {A} status.

Definition REALTIME_POLICY : SafetyPolicy := default_policy.
Definition FORECAST_POLICY : SafetyPolicy := default_policy.

(** [realtime(req)] *)
Definition realtime (include_marine : bool) (fog_policy : FogPolicy)
  (weather_http marine_http : http) : response (reading * verdict) :=
  match get_realtime include_marine weather_http marine_http with
  | Raise OpenMeteoError => HttpError 502
  | Raise _ => HttpError 500
  | Ok data =>
      match assess_realtime data REALTIME_POLICY fog_policy with
      | None => HttpError 500
      | Some safety => Http200 (data, safety)
      end
  end.

(** [forecast(req)] *)
Definition forecast_route {date : Type} `{EqDecision date}
  (strptime fromisoformat : string → option date)
  (include_marine : bool) (fog_policy : FogPolicy) (date_str : string)
  (weather_http marine_http : http) : response (day_forecast * verdict) :=
  match get_forecast_for_date strptime fromisoformat include_marine date_str
          weather_http marine_http with
  | Raise OpenMeteoError => HttpError 502
  | Raise ValueError => HttpError 400
  | Raise _ => HttpError 500
  | Ok data =>
      match assess_forecast (window data) FORECAST_POLICY fog_policy with
      | None => HttpError 500
      | Some safety => Http200 (data, safety)
      end
  end.

(** The weather request was answered with usable data. *)
Definition answered (r : http) (data : payload) : Prop :=
  r = Response 200 (Some data) ∧ truthy (dget (p_top data) "reason") = false.

(** The wind, gust, precipitation and rain entries of the provider's
    [current] object are numbers or absent. *)
Definition numeric_current (data : payload) : bool :=
  let current := default ∅ (p_current data) in
  no_text (dget current "wind_speed_10m")
  && no_text (dget current "wind_gusts_10m")
  && no_text (dget current "precipitation")
  && no_text (dget current "rain").

(** The keys of the dictionaries the client builds. *)
Definition weather_keys : list string :=
  ["time"; "temperature_2m_c"; "apparent_temperature_c";
   "relative_humidity_pct"; "precipitation_mm"; "rain_mm"; "cloud_cover_pct";
   "wind_speed_10m_kmh"; "wind_gusts_10m_kmh"; "wind_direction_10m_deg";
   "weather_code"; "weather_text"].

Definition marine_keys : list string :=
  ["time"; "wave_height_m"; "wave_direction_deg"; "wave_period_s";
   "wind_wave_height_m"; "wind_wave_direction_deg"; "wind_wave_period_s";
   "swell_wave_height_m"; "swell_wave_direction_deg"; "swell_wave_period_s"].

(** Sample responses of the provider. *)
Definition storm_weather : payload := {|
  p_top := <["latitude" := PyNum 36]> ∅;
  p_current := Some (<["weather_code" := PyNum 95]>
                    (<["wind_speed_10m" := PyNum 30]> ∅));
  p_hourly := None;
  p_daily := None
|}.

Definition rough_marine : payload := {|
  p_top := <["latitude" := PyNum 36]> ∅;
  p_current := Some (<["wave_height" := PyNum (25 # 10)]> ∅);
  p_hourly := Some (<["wave_height" := [PyNum 1; PyNone; PyNum (25 # 10)]]> ∅);
  p_daily := None
|}.

Definition refused : payload := {|
  p_top := <["reason" := PyStr "Latitude must be in range of -90 to 90"]>
           (<["error" := PyNum 1]> ∅);
  p_current := None; p_hourly := None; p_daily := None
|}.

(** The timestamp [ts] parses to the day [target_day]. *)
Definition on_day {date : Type} `{EqDecision date}
  (fromisoformat : string → option date) (target_day : date) (ts : pyval)
  : bool :=
  match day_of fromisoformat ts with
  | Ok d => bool_decide (d = target_day)
  | Raise _ => false
  end.

(** The hours of the timestamps on the target day, from index [i] on. *)
Fixpoint picks {date : Type} `{EqDecision date}
  (fromisoformat : string → option date) (hourly : series)
  (target_day : date) (i : nat) (times : list pyval) : list pydict :=
  match times with
  | [] => []
  | ts :: rest =>
      (if on_day fromisoformat target_day ts then [hour_at hourly i ts]
       else [])
      ++ picks fromisoformat hourly target_day (S i) rest
  end.

(** The hourly wind, gust, precipitation and rain arrays hold numbers and
    nulls only. *)
Definition numeric_series (hourly : series) : Prop :=
  Forall (λ name, Forall (λ v, no_text v = true) (arr hourly name))
    ["wind_speed_10m"; "wind_gusts_10m"; "precipitation"; "rain"].

(** A sample of the two date parameters: the day is the first ten
    characters of a text of at least ten. *)
Definition first_ten (s : string) : option string :=
  if (10 <=? String.length s)%nat then Some (substring 0 10 s) else None.

(** A sample hourly response over two days, with a wind array shorter than
    the time array. *)
Definition two_day_weather : payload := {|
  p_top := <["latitude" := PyNum 36]> ∅;
  p_current := None;
  p_hourly :=
    Some (<["time" := [PyStr "2025-06-01T22:00"; PyStr "2025-06-01T23:00";
                       PyStr "2025-06-02T00:00"]]>
         (<["weather_code" := [PyNum 3; PyNum 45; PyNum 95]]>
         (<["wind_speed_10m" := [PyNum 25]]> ∅)));
  p_daily := Some (<["temperature_2m_max" := [PyNum 27]]> ∅)
|}.

(** The marine summary a day forecast ends with: the aggregate of the
    marine response when marine data is asked for and the marine request is
    answered with an object that is not empty. *)
Definition marine_summary (include_marine : bool) (marine_http : http)
  : option pydict :=
  if include_marine then
    match _get_json marine_http true with
    | Ok (Some m) =>
        if payload_truthy m then Some (_aggregate_marine_day m) else None
    | _ => None
    end
  else None.

(** ** Vocabulary of the further properties *)

(** The order Safe, Caution, Unsafe of the statuses a score maps to;
    Unknown is comparable to itself only. *)
Definition status_le (a b : Status) : bool :=
  match a, b with
  | Safe, (Safe | Caution | Unsafe) => true
  | Caution, (Caution | Unsafe) => true
  | Unsafe, Unsafe => true
  | Unknown, Unknown => true
  | _, _ => false
  end.

(** The reading with the weather entry [k] set to [v]. *)
Definition with_weather (k : string) (v : pyval) (r : reading) : reading :=
  {| weather := Some (<[k := v]> (default ∅ (weather r)));
     marine := marine r |}.

(** The most the rules of [assess_realtime] can add under a policy: the
    largest weight of each group of exclusive rules, or nothing. *)
Definition realtime_score_bound (p : SafetyPolicy) : Z :=
  Z.max 0 (Z.max (score_fog_realtime p) (band_caution_min p))
  + Z.max 0 (Z.max (score_wind_strong p) (score_wind_mod p))
  + Z.max 0 (Z.max (score_precip_heavy p) (score_precip_mod p))
  + Z.max 0 (Z.max (score_missing_waves p)
               (Z.max (score_wave_high p)
                  (Z.max (score_wave_elevated p) (score_wave_moderate p))))
  + Z.max 0 (Z.max (score_swell_large p)
               (Z.max (score_swell_notable p) (score_surge_long_period p))).

(** Fog, a gale, heavy rain, high waves and a large swell at once. *)
Definition worst_reading : reading := {|
  weather := Some (<["weather_code" := PyNum 45]>
                  (<["wind_speed_10m_kmh" := PyNum 50]>
                  (<["precipitation_mm" := PyNum 6]> ∅)));
  marine := Some (<["wave_height_m" := PyNum 3]>
                 (<["swell_wave_height_m" := PyNum 3]>
                 (<["swell_wave_period_s" := PyNum 12]> ∅)))
|}.

(** Two readings in which the engine reads the same: the same weather code
    and temperature, the same wind, gusts, precipitation and rain once a
    missing, null or zero entry is taken as 0, and the same wave height,
    swell height and swell period. *)
Definition same_inputs (r r' : reading) : Prop :=
  let wx := default ∅ (weather r) in
  let wx' := default ∅ (weather r') in
  let sea := default ∅ (marine r) in
  let sea' := default ∅ (marine r') in
  dget wx "weather_code" = dget wx' "weather_code"
  ∧ or_zero (dget wx "wind_speed_10m_kmh")
    = or_zero (dget wx' "wind_speed_10m_kmh")
  ∧ or_zero (dget wx "wind_gusts_10m_kmh")
    = or_zero (dget wx' "wind_gusts_10m_kmh")
  ∧ or_zero (dget wx "precipitation_mm") = or_zero (dget wx' "precipitation_mm")
  ∧ or_zero (dget wx "rain_mm") = or_zero (dget wx' "rain_mm")
  ∧ dget wx "temperature_2m_c" = dget wx' "temperature_2m_c"
  ∧ dget sea "wave_height_m" = dget sea' "wave_height_m"
  ∧ dget sea "swell_wave_height_m" = dget sea' "swell_wave_height_m"
  ∧ dget sea "swell_wave_period_s" = dget sea' "swell_wave_period_s".

(** An hour at which the scan does not stop. *)
Definition no_stop (policy : SafetyPolicy) (h : pydict) : bool :=
  negb (thunderstorm_hard_stop policy
        && is_thunderstorm (dget h "weather_code")).

(** Two results of a scan that agree on the score, on the flag and, up to
    their order, on the reasons. *)
Definition same_totals (o o' : option state) : Prop :=
  match o, o' with
  | Some a, Some b =>
      score a = score b ∧ hard_unsafe a = hard_unsafe b
      ∧ reasons a ≡ₚ reasons b
  | None, None => True
  | _, _ => False
  end.

(** A foggy hour. *)
Definition foggy_hour : pydict := <["weather_code" := PyNum 45]> ∅.

(** Running totals in which every point of the score has a reason: without
    a reason the score is 0 and no hard stop is set. *)
Definition explained (st : state) : Prop :=
  reasons st = [] → score st = 0 ∧ hard_unsafe st = false.

(** A reading on a calm day. *)
Definition calm_reading : reading := {|
  weather := Some (<["weather_code" := PyNum 1]>
                  (<["wind_speed_10m_kmh" := PyNum 8]>
                  (<["temperature_2m_c" := PyNum 24]> ∅)));
  marine := Some (<["wave_height_m" := PyNum (1 # 2)]> ∅)
|}.

(** * Properties *)

(** ** Running totals as a monoid *)

Lemma state_ext (a b : state) :
  score a = score b → hard_unsafe a = hard_unsafe b →
  reasons a = reasons b → tips a = tips b → a = b.
Proof. destruct a, b; simpl; intros; congruence. Qed.

Ltac state_eq :=
  apply state_ext; simpl;
  rewrite ?app_nil_r, ?app_nil_l, <- ?app_assoc, ?orb_false_r, ?orb_true_r;
  simpl; try reflexivity; try lia.

Lemma combine_init_l st : combine init st = st.
Proof. state_eq. Qed.

Lemma combine_init_r st : combine st init = st.
Proof. state_eq. Qed.

Lemma combine_assoc a b c : combine (combine a b) c = combine a (combine b c).
Proof. state_eq. symmetry. apply orb_assoc. Qed.

(** Unfold one rule and split on every test it makes. *)
Ltac split_rule :=
  repeat match goal with
    | |- context [match ?x with _ => _ end] =>
        match type of x with
        | bool => destruct x eqn:?
        | option _ => destruct x eqn:?
        | pyval => destruct x eqn:?
        | FogPolicy => destruct x
        | sumbool _ _ => destruct x
        end; simpl
    end.

Section Frames.
Variable policy : SafetyPolicy.

Lemma rt_thunderstorm_frame code st :
  Realtime.thunderstorm policy code st
  = combine st (Realtime.thunderstorm policy code init).
Proof. unfold Realtime.thunderstorm. split_rule; state_eq. Qed.

Lemma rt_wind_frame wind gust st :
  Realtime.wind_rule policy wind gust st
  = combine st <$> Realtime.wind_rule policy wind gust init.
Proof.
  unfold Realtime.wind_rule, or_else, py_ge, py_format_f.
  destruct wind, gust; simpl; split_rule; try reflexivity;
    f_equal; state_eq.
Qed.

Lemma rt_precip_frame precip st :
  Realtime.precip_rule policy precip st
  = combine st <$> Realtime.precip_rule policy precip init.
Proof.
  unfold Realtime.precip_rule, py_ge, py_format_f.
  destruct precip; simpl; split_rule; try reflexivity; f_equal; state_eq.
Qed.

Lemma rt_waves_frame wave_h st :
  Realtime.waves policy wave_h st
  = combine st (Realtime.waves policy wave_h init).
Proof. unfold Realtime.waves. split_rule; state_eq. Qed.

Lemma rt_swell_frame swell_h swell_p st :
  Realtime.swell policy swell_h swell_p st
  = combine st (Realtime.swell policy swell_h swell_p init).
Proof. unfold Realtime.swell. split_rule; state_eq. Qed.

Lemma rt_comfort_frame air_c st :
  Realtime.comfort air_c st = combine st (Realtime.comfort air_c init).
Proof. unfold Realtime.comfort. split_rule; state_eq. Qed.

Lemma fc_wind_frame wind gust st :
  Forecast.wind_rule policy wind gust st
  = combine st <$> Forecast.wind_rule policy wind gust init.
Proof.
  unfold Forecast.wind_rule, or_else, py_ge, py_format_f.
  destruct wind, gust; simpl; split_rule; try reflexivity;
    f_equal; state_eq.
Qed.

Lemma fc_precip_frame precip st :
  Forecast.precip_rule policy precip st
  = combine st <$> Forecast.precip_rule policy precip init.
Proof.
  unfold Forecast.precip_rule, py_ge, py_format_f.
  destruct precip; simpl; split_rule; try reflexivity; f_equal; state_eq.
Qed.

Lemma fc_waves_frame wave_h st :
  Forecast.waves policy wave_h st
  = combine st (Forecast.waves policy wave_h init).
Proof. unfold Forecast.waves. split_rule; state_eq. Qed.

Lemma fc_swell_frame swell_h st :
  Forecast.swell policy swell_h st
  = combine st (Forecast.swell policy swell_h init).
Proof. unfold Forecast.swell. split_rule; state_eq. Qed.

Lemma fc_marine_frame marine st :
  Forecast.marine_rules policy marine st
  = combine st (Forecast.marine_rules policy marine init).
Proof.
  unfold Forecast.marine_rules.
  rewrite fc_swell_frame, fc_waves_frame, combine_assoc.
  f_equal. symmetry. apply fc_swell_frame.
Qed.

End Frames.

(** ** Deduplication *)

Lemma dedupe_from_union (S T : gset string) (l : list string) :
  dedupe_from (S ∪ T) l = filter (λ s, s ∉ S) (dedupe_from T l).
Proof.
  revert T. induction l as [|s l IH]; intros T; simpl; [reflexivity|].
  destruct (decide (s ∈ T)) as [HT|HT].
  - rewrite decide_True by set_solver. apply IH.
  - destruct (decide (s ∈ S)) as [HS|HS].
    + rewrite decide_True by set_solver.
      rewrite filter_cons_False by (intros H; apply H, HS).
      rewrite <- IH. f_equal. set_solver.
    + rewrite decide_False by set_solver.
      rewrite filter_cons_True by exact HS.
      f_equal. rewrite <- IH. f_equal. set_solver.
Qed.

Lemma elem_of_dedupe_from (T : gset string) (l : list string) (s : string) :
  s ∈ dedupe_from T l ↔ s ∈ l ∧ s ∉ T.
Proof.
  revert T. induction l as [|x l IH]; intros T; simpl.
  - split; [intros H; inversion H | intros [H _]; inversion H].
  - rewrite elem_of_cons. destruct (decide (x ∈ T)) as [HT|HT].
    + rewrite IH. split; [tauto|].
      intros [[->|H] HT']; [contradiction | tauto].
    + rewrite elem_of_cons, IH, not_elem_of_union, not_elem_of_singleton.
      destruct (decide (s = x)) as [->|Hne]; tauto.
Qed.

Lemma elem_of_dedupe (l : list string) (s : string) : s ∈ _dedupe l ↔ s ∈ l.
Proof. unfold _dedupe. rewrite elem_of_dedupe_from. set_solver. Qed.

Lemma NoDup_dedupe_from (T : gset string) (l : list string) :
  NoDup (dedupe_from T l).
Proof.
  revert T. induction l as [|x l IH]; intros T; simpl; [constructor|].
  destruct (decide (x ∈ T)); [apply IH|].
  constructor; [|apply IH].
  rewrite elem_of_dedupe_from. set_solver.
Qed.

Lemma dedupe_cons (x : string) (l : list string) :
  _dedupe (x :: l) = x :: filter (λ s, s ∉ ({[x]} : gset string)) (_dedupe l).
Proof.
  unfold _dedupe. simpl. rewrite decide_False by set_solver.
  f_equal. apply dedupe_from_union.
Qed.

Lemma filter_keeps_all {A} (P : A → Prop) `{∀ x, Decision (P x)} (l : list A) :
  (∀ x, x ∈ l → P x) → filter P l = l.
Proof.
  induction l as [|a l IH]; intros Hall; [reflexivity|].
  rewrite filter_cons_True by (apply Hall; left).
  f_equal. apply IH. intros x Hx. apply Hall. right. exact Hx.
Qed.

Lemma dedupe_cons_fresh (x : string) (l : list string) :
  x ∉ l → _dedupe (x :: l) = x :: _dedupe l.
Proof.
  intros Hx. rewrite dedupe_cons. f_equal.
  apply filter_keeps_all. intros s Hs.
  rewrite elem_of_dedupe in Hs. rewrite not_elem_of_singleton.
  intros Heq. subst s. exact (Hx Hs).
Qed.

Lemma dedupe_repeat (x : string) (n : nat) (l : list string) :
  _dedupe (x :: repeat x n ++ l) = _dedupe (x :: l).
Proof.
  unfold _dedupe. simpl. rewrite decide_False by set_solver.
  f_equal. induction n as [|n IH]; simpl; [reflexivity|].
  rewrite decide_True by set_solver. exact IH.
Qed.

(** ** The real-time rules after the fog rule *)

Lemma rt_rules_unfold r policy fog_policy :
  Realtime.rules r policy fog_policy
  = (let wx := default ∅ (weather r) in
     precip ← py_add (or_zero (dget wx "precipitation_mm"))
                     (or_zero (dget wx "rain_mm"));
     rt_tail policy wx (default ∅ (marine r)) precip
       (Realtime.fog policy fog_policy (weather_code r)
          (Realtime.thunderstorm policy (weather_code r) init))).
Proof. reflexivity. Qed.

Lemma rt_tail_frame policy wx sea precip st :
  rt_tail policy wx sea precip st
  = combine st <$> rt_tail policy wx sea precip init.
Proof.
  unfold rt_tail.
  rewrite rt_wind_frame.
  destruct (Realtime.wind_rule policy _ _ init) as [d1|]; simpl; [|reflexivity].
  rewrite (rt_precip_frame policy precip (combine st d1)).
  rewrite (rt_precip_frame policy precip d1).
  destruct (Realtime.precip_rule policy precip init) as [d2|]; simpl;
    [|reflexivity].
  f_equal.
  rewrite rt_comfort_frame, rt_swell_frame, rt_waves_frame.
  rewrite (rt_comfort_frame _
             (Realtime.swell _ _ _ (Realtime.waves _ _ (combine d1 d2)))).
  rewrite (rt_swell_frame _ _ _ (Realtime.waves _ _ (combine d1 d2))).
  rewrite (rt_waves_frame _ _ (combine d1 d2)).
  rewrite !combine_assoc. reflexivity.
Qed.

Lemma rt_tail_hard_stop b policy wx sea precip st :
  rt_tail (with_hard_stop b policy) wx sea precip st
  = rt_tail policy wx sea precip st.
Proof. reflexivity. Qed.

(** ** Which texts the rules can append *)

Lemma head_among_fresh cs (t : string) (l : list string) :
  Forall (λ s, head_among cs s = true) l → head_among cs t = false → t ∉ l.
Proof.
  intros Hall Ht Hin. rewrite Forall_forall in Hall.
  specialize (Hall t Hin). congruence.
Qed.

Ltac heads_step :=
  intros [Hr Ht]; split; simpl; rewrite ?Forall_app; repeat split;
  try assumption; repeat constructor.

Lemma rt_wind_heads policy wind gust st st' :
  Realtime.wind_rule policy wind gust st = Some st' →
  heads_ok st → heads_ok st'.
Proof.
  unfold Realtime.wind_rule, or_else, py_ge, py_format_f.
  destruct wind, gust; simpl; split_rule; intros [= <-];
    try exact id; heads_step.
Qed.

Lemma rt_precip_heads policy precip st st' :
  Realtime.precip_rule policy precip st = Some st' →
  heads_ok st → heads_ok st'.
Proof.
  unfold Realtime.precip_rule, py_ge, py_format_f.
  destruct precip; simpl; split_rule; intros [= <-];
    try exact id; heads_step.
Qed.

Lemma rt_waves_heads policy wave_h st :
  heads_ok st → heads_ok (Realtime.waves policy wave_h st).
Proof. unfold Realtime.waves. split_rule; try exact id; heads_step. Qed.

Lemma rt_swell_heads policy swell_h swell_p st :
  heads_ok st → heads_ok (Realtime.swell policy swell_h swell_p st).
Proof. unfold Realtime.swell. split_rule; try exact id; heads_step. Qed.

Lemma rt_comfort_heads air_c st :
  heads_ok st → heads_ok (Realtime.comfort air_c st).
Proof. unfold Realtime.comfort. split_rule; try exact id; heads_step. Qed.

Lemma rt_tail_heads policy wx sea precip d :
  rt_tail policy wx sea precip init = Some d → heads_ok d.
Proof.
  unfold rt_tail. intros H.
  destruct (Realtime.wind_rule policy _ _ init) as [s1|] eqn:H1;
    simpl in H; [|discriminate].
  destruct (Realtime.precip_rule policy precip s1) as [s2|] eqn:H2;
    simpl in H; [|discriminate].
  injection H as <-.
  apply rt_comfort_heads, rt_swell_heads, rt_waves_heads.
  apply (rt_precip_heads _ _ _ _ H2), (rt_wind_heads _ _ _ _ _ H1).
  split; constructor.
Qed.

(** ** The weather codes *)

Lemma thunderstorm_not_fog code : is_thunderstorm code = true → is_fog code = false.
Proof.
  unfold is_thunderstorm, is_fog, code_in. destruct code as [|x|]; try discriminate.
  simpl. rewrite !orb_false_r, !orb_true_iff, !Qeq_bool_iff, orb_false_iff.
  intros H. split; apply not_true_is_false; rewrite Qeq_bool_iff; intros E;
    rewrite E in H; destruct H as [H|[H|H]]; discriminate H.
Qed.

Lemma fog_not_thunderstorm code : is_fog code = true → is_thunderstorm code = false.
Proof.
  intros H. destruct (is_thunderstorm code) eqn:E; [|reflexivity].
  apply thunderstorm_not_fog in E. congruence.
Qed.

(** ** When the rules return *)

Lemma or_zero_number v : no_text v = true → ∃ x, or_zero v = PyNum x.
Proof.
  unfold or_zero. destruct v as [|x|s]; simpl; try discriminate; intros _.
  - eexists; reflexivity.
  - destruct (negb _); eexists; reflexivity.
Qed.

Lemma rt_wind_returns policy x y st :
  is_Some (Realtime.wind_rule policy (PyNum x) (PyNum y) st).
Proof. unfold Realtime.wind_rule. simpl. split_rule; eexists; reflexivity. Qed.

Lemma rt_precip_returns policy x st :
  is_Some (Realtime.precip_rule policy (PyNum x) st).
Proof. unfold Realtime.precip_rule. simpl. split_rule; eexists; reflexivity. Qed.

Lemma fc_wind_returns policy x y st :
  is_Some (Forecast.wind_rule policy (PyNum x) (PyNum y) st).
Proof. unfold Forecast.wind_rule. simpl. split_rule; eexists; reflexivity. Qed.

Lemma fc_precip_returns policy x st :
  is_Some (Forecast.precip_rule policy (PyNum x) st).
Proof. unfold Forecast.precip_rule. simpl. split_rule; eexists; reflexivity. Qed.

Lemma numeric_weather_values wx :
  numeric_weather wx = true →
  ∃ w g a b,
    or_zero (dget wx "wind_speed_10m_kmh") = PyNum w
    ∧ or_zero (dget wx "wind_gusts_10m_kmh") = PyNum g
    ∧ or_zero (dget wx "precipitation_mm") = PyNum a
    ∧ or_zero (dget wx "rain_mm") = PyNum b.
Proof.
  unfold numeric_weather. rewrite !andb_true_iff.
  intros [[[Hw Hg] Ha] Hb].
  destruct (or_zero_number _ Hw) as [w ->], (or_zero_number _ Hg) as [g ->],
    (or_zero_number _ Ha) as [a ->], (or_zero_number _ Hb) as [b ->].
  by exists w, g, a, b.
Qed.

Lemma rt_rules_return r policy fog_policy :
  numeric_weather (default ∅ (weather r)) = true →
  is_Some (Realtime.rules r policy fog_policy).
Proof.
  intros H. apply numeric_weather_values in H as (w & g & a & b & Hw & Hg & Ha & Hb).
  unfold Realtime.rules. rewrite Hw, Hg, Ha, Hb. simpl.
  destruct (rt_wind_returns policy w g
              (Realtime.fog policy fog_policy
                 (dget (default ∅ (weather r)) "weather_code")
                 (Realtime.thunderstorm policy
                    (dget (default ∅ (weather r)) "weather_code") init)))
    as [s1 ->]. simpl.
  destruct (rt_precip_returns policy (a + b) s1) as [s2 ->]. simpl.
  eexists; reflexivity.
Qed.

(** ** C1: the thunderstorm hard stop in real time *)

Lemma rt_thunderstorm_fires policy code st :
  thunderstorm_hard_stop policy = true → is_thunderstorm code = true →
  Realtime.thunderstorm policy code st
  = set_hard_unsafe
      (add_reason "Thunderstorm in area (lightning risk)." st).
Proof.
  unfold Realtime.thunderstorm, is_thunderstorm. intros -> ->. reflexivity.
Qed.

Lemma rt_fog_skips policy fog_policy code st :
  is_fog code = false → Realtime.fog policy fog_policy code st = st.
Proof. unfold Realtime.fog, is_fog. intros ->. reflexivity. Qed.

Lemma finish_hard_stop policy b t d :
  t ∉ reasons d →
  finish policy
    (combine (set_hard_unsafe (add_reason t init)) d)
  = hard_stop_over t (finish (with_hard_stop b policy) d).
Proof.
  intros Hfresh. unfold finish, hard_stop_over. simpl.
  f_equal. apply dedupe_cons_fresh, Hfresh.
Qed.


(** ** C2: no hourly forecast *)

(** C2.  With an empty hourly sequence [assess_forecast] returns exactly
    status Unknown, score null, the single reason "No hourly forecast
    available." and no tips, whatever the marine summary, the policy and the
    fog policy are: no rule contributes. *)
Theorem C2_empty_hourly marine policy fog_policy :
  assess_forecast {| hourly := []; marine_daily := marine |} policy fog_policy
  = Some {| v_status := Unknown; v_score := None;
            v_reasons := ["No hourly forecast available."]; v_tips := [] |}.
Proof. reflexivity. Qed.

(** ** C3: the thunderstorm hard stop in a forecast *)

Lemma fc_hour_stops policy fog_policy h st :
  thunderstorm_hard_stop policy = true →
  is_thunderstorm (dget h "weather_code") = true →
  ∀ fl, Forecast.hour policy fog_policy h st = Some fl →
        fl = Break (set_hard_unsafe
                      (add_reason Forecast.thunderstorm_reason st)).
Proof.
  unfold Forecast.hour, is_thunderstorm. intros -> -> fl.
  destruct (py_add _ _); simpl; intros [= <-]. reflexivity.
Qed.

Lemma fc_hour_break_hard policy fog_policy h st st' :
  Forecast.hour policy fog_policy h st = Some (Break st') →
  hard_unsafe st' = true.
Proof.
  unfold Forecast.hour.
  destruct (py_add _ _); simpl; [|discriminate].
  destruct (_ && _); [intros [= <-]; reflexivity|].
  destruct (Forecast.wind_rule _ _ _ _); simpl; [|discriminate].
  destruct (Forecast.precip_rule _ _ _); simpl; discriminate.
Qed.

Lemma fc_scan_stops policy fog_policy pre h post st :
  thunderstorm_hard_stop policy = true →
  is_thunderstorm (dget h "weather_code") = true →
  Forecast.scan policy fog_policy (pre ++ h :: post) st
  = Forecast.scan policy fog_policy (pre ++ [h]) st.
Proof.
  intros Hstop Hcode. revert st.
  induction pre as [|h0 pre IH]; intros st; simpl.
  - destruct (Forecast.hour policy fog_policy h st) as [fl|] eqn:Hh;
      [|reflexivity].
    rewrite (fc_hour_stops _ _ _ _ Hstop Hcode _ Hh). reflexivity.
  - destruct (Forecast.hour policy fog_policy h0 st) as [[st1|st1]|];
      [apply IH | reflexivity | reflexivity].
Qed.

Lemma fc_scan_stopped_hard policy fog_policy pre h st st' :
  thunderstorm_hard_stop policy = true →
  is_thunderstorm (dget h "weather_code") = true →
  Forecast.scan policy fog_policy (pre ++ [h]) st = Some st' →
  hard_unsafe st' = true.
Proof.
  intros Hstop Hcode. revert st.
  induction pre as [|h0 pre IH]; intros st; simpl.
  - destruct (Forecast.hour policy fog_policy h st) as [fl|] eqn:Hh;
      [|discriminate].
    rewrite (fc_hour_stops _ _ _ _ Hstop Hcode _ Hh).
    intros [= <-]. reflexivity.
  - destruct (Forecast.hour policy fog_policy h0 st) as [[st1|st1]|] eqn:Hh;
      [apply IH | | discriminate].
    intros [= <-]. apply (fc_hour_break_hard _ _ _ _ _ Hh).
Qed.

Lemma fc_hour_returns policy fog_policy h st :
  numeric_weather h = true → is_Some (Forecast.hour policy fog_policy h st).
Proof.
  intros H. apply numeric_weather_values in H as (w & g & a & b & Hw & Hg & Ha & Hb).
  unfold Forecast.hour. rewrite Hw, Hg, Ha, Hb. simpl.
  destruct (_ && _); [eexists; reflexivity|].
  destruct (fc_wind_returns policy w g
              (Forecast.fog policy fog_policy (dget h "weather_code") st))
    as [s1 ->]. simpl.
  destruct (fc_precip_returns policy (a + b) s1) as [s2 ->]. simpl.
  eexists; reflexivity.
Qed.

Lemma fc_scan_returns policy fog_policy hours st :
  Forall (λ h, numeric_weather h = true) hours →
  is_Some (Forecast.scan policy fog_policy hours st).
Proof.
  intros Hall. revert st. induction Hall as [|h hours Hh _ IH]; intros st; simpl.
  - eexists; reflexivity.
  - destruct (fc_hour_returns policy fog_policy h st Hh) as [[st1|st1] ->];
      [apply IH | eexists; reflexivity].
Qed.

Lemma assess_forecast_scan hours marine policy fog_policy :
  hours ≠ [] →
  assess_forecast {| hourly := hours; marine_daily := marine |}
    policy fog_policy
  = (λ st, finish policy
             (Forecast.marine_rules policy (default ∅ marine) st))
      <$> Forecast.scan policy fog_policy hours init.
Proof.
  unfold assess_forecast. simpl. destruct hours; [congruence|]. reflexivity.
Qed.


(** ** C4: scores add up over the hours, texts do not *)

Lemma fc_hour_moderate_wind policy fog_policy h w g st :
  moderate_wind_only policy h = true →
  wind_shown h = Some (w, g) →
  Forecast.hour policy fog_policy h st
  = Some (Continue
            (add_score (score_wind_mod policy)
               (add_reason
                  ("Moderate winds forecast (" +:+ w +:+ "/" +:+ g
                   +:+ " km/h).") st))).
Proof.
  unfold moderate_wind_only, wind_shown, Forecast.hour, is_thunderstorm.
  destruct (or_zero (dget h "wind_speed_10m_kmh")) as [|x|]; simpl;
    try (rewrite andb_false_r; discriminate).
  destruct (or_zero (dget h "wind_gusts_10m_kmh")) as [|y|]; simpl;
    try (rewrite andb_false_r; discriminate).
  destruct (py_add _ _) as [[|q|]|]; simpl;
    try (rewrite andb_false_r; discriminate).
  rewrite !andb_true_iff, !negb_true_iff.
  intros [[Hth Hfog] [[[[Hws Hgs] Hmod] Hph] Hpm]] [= <- <-].
  rewrite Hth. unfold Forecast.fog. fold (is_fog (dget h "weather_code")).
  rewrite Hfog.
  unfold Forecast.wind_rule, Forecast.precip_rule, or_else, py_ge. simpl.
  unfold num_ge in *. rewrite Hws, Hgs. simpl.
  destruct (Qle_bool (wind_mod policy) x); simpl in *;
    [|rewrite Hmod; simpl]; rewrite Hph; simpl; rewrite Hpm; reflexivity.
Qed.

Lemma fc_scan_moderate_wind policy fog_policy hours w g st :
  Forall (λ h, moderate_wind_only policy h = true
               ∧ wind_shown h = Some (w, g)) hours →
  Forecast.scan policy fog_policy hours st
  = Some {| score := score st
                     + Z.of_nat (length hours) * score_wind_mod policy;
            hard_unsafe := hard_unsafe st;
            reasons := reasons st
                       ++ repeat ("Moderate winds forecast (" +:+ w +:+ "/"
                                  +:+ g +:+ " km/h).") (length hours);
            tips := tips st |}.
Proof.
  intros Hall. revert st.
  induction Hall as [|h hours [Hm Hs] _ IH]; intros st.
  - simpl. f_equal. state_eq.
  - cbn [Forecast.scan]. rewrite (fc_hour_moderate_wind _ _ _ w g) by assumption.
    rewrite IH. f_equal. state_eq.
Qed.

(** Without the fog floor the scan is additive: scanning from [st] adds to
    [st] what the same hours contribute from zero, hour after hour. *)
Lemma fc_fog_frame policy fog_policy code st :
  fog_policy ≠ FogCaution →
  Forecast.fog policy fog_policy code st
  = combine st (Forecast.fog policy fog_policy code init).
Proof.
  intros Hfp. unfold Forecast.fog.
  destruct (code_in code [45; 48]); [|state_eq].
  destruct fog_policy; [state_eq | state_eq | congruence].
Qed.

Lemma fc_hour_frame policy fog_policy h st :
  fog_policy ≠ FogCaution →
  Forecast.hour policy fog_policy h st
  = flow_map (combine st) <$> Forecast.hour policy fog_policy h init.
Proof.
  intros Hfp. unfold Forecast.hour.
  destruct (py_add _ _) as [precip|]; simpl; [|reflexivity].
  destruct (_ && _); [simpl; do 2 f_equal; state_eq|].
  rewrite (fc_fog_frame _ _ _ st) by exact Hfp.
  set (dfog := Forecast.fog policy fog_policy _ init).
  rewrite (fc_wind_frame _ _ _ (combine st dfog)), (fc_wind_frame _ _ _ dfog).
  destruct (Forecast.wind_rule policy _ _ init) as [d1|]; simpl;
    [|reflexivity].
  rewrite (fc_precip_frame _ _ (combine (combine st dfog) d1)).
  rewrite (fc_precip_frame _ _ (combine dfog d1)).
  destruct (Forecast.precip_rule policy precip init) as [d2|]; simpl;
    [|reflexivity].
  rewrite !combine_assoc. reflexivity.
Qed.

Lemma fc_scan_frame policy fog_policy hours st :
  fog_policy ≠ FogCaution →
  Forecast.scan policy fog_policy hours st
  = combine st <$> Forecast.scan policy fog_policy hours init.
Proof.
  intros Hfp. revert st.
  induction hours as [|h hours IH]; intros st; simpl.
  - rewrite combine_init_r. reflexivity.
  - rewrite (fc_hour_frame _ _ _ st) by exact Hfp.
    destruct (Forecast.hour policy fog_policy h init) as [[d|d]|]; simpl;
      [|reflexivity|reflexivity].
    rewrite (IH (combine st d)), (IH d).
    destruct (Forecast.scan policy fog_policy hours init) as [d'|]; simpl;
      [|reflexivity].
    rewrite combine_assoc. reflexivity.
Qed.

(** Under the fog floor it is not: an hour of fog after an hour of moderate
    wind raises 15 to 20, it does not add 20. *)
Example fog_floor_not_additive :
  score <$> Forecast.scan default_policy FogCaution
              [breezy_hour; <["weather_code" := PyNum 45]> ∅] init
  = Some 20.
Proof. vm_compute. reflexivity. Qed.

Lemma fc_marine_not_wind policy marine :
  Forall (λ s, String.prefix "Moderate wi" s = false)
    (reasons (Forecast.marine_rules policy marine init)).
Proof.
  unfold Forecast.marine_rules, Forecast.waves, Forecast.swell.
  split_rule; repeat constructor.
Qed.

Lemma fc_marine_plain policy marine :
  hard_unsafe (Forecast.marine_rules policy marine init) = false
  ∧ tips (Forecast.marine_rules policy marine init) = [].
Proof.
  unfold Forecast.marine_rules, Forecast.waves, Forecast.swell.
  split_rule; split; reflexivity.
Qed.


(** ** C5: the range of the score *)

Example rough_reading_verdict :
  assess_realtime rough_reading default_policy FogScore
  = Some {| v_status := Unsafe; v_score := Some 130;
            v_reasons := ["Strong wind/gusts (30/0 km/h).";
                          "High waves (2.50 m) — unsafe entries likely.";
                          "Large swell (2.50 m @ 8s)."];
            v_tips := ["Expect chop; consider sheltered site or postponing.";
                       "Postpone or choose very sheltered site."] |}.
Proof. vm_compute. reflexivity. Qed.

Example empty_reading_rebate :
  assess_realtime empty_reading rebate_policy FogScore
  = Some {| v_status := Safe; v_score := Some (-5);
            v_reasons := [Realtime.missing_waves_reason]; v_tips := [] |}.
Proof. vm_compute. reflexivity. Qed.


Lemma nonneg_weights_spec p :
  nonneg_weights p = true →
  0 <= score_fog_realtime p ∧ 0 <= score_fog_forecast p
  ∧ 0 <= score_wind_strong p ∧ 0 <= score_wind_mod p
  ∧ 0 <= score_precip_heavy p ∧ 0 <= score_precip_mod p
  ∧ 0 <= score_wave_high p ∧ 0 <= score_wave_elevated p
  ∧ 0 <= score_wave_moderate p ∧ 0 <= score_swell_large p
  ∧ 0 <= score_swell_notable p ∧ 0 <= score_surge_long_period p
  ∧ 0 <= score_missing_waves p.
Proof.
  unfold nonneg_weights. simpl. rewrite !andb_true_iff, !Z.leb_le. tauto.
Qed.

Ltac score_step :=
  simpl; try (intros [= <-]; simpl); try discriminate; try lia.

Section Nonneg.
Variable policy : SafetyPolicy.
Hypothesis Hw : nonneg_weights policy = true.

Lemma rt_fog_nonneg fog_policy code st :
  0 <= score st → 0 <= score (Realtime.fog policy fog_policy code st).
Proof.
  pose proof (nonneg_weights_spec _ Hw). intros H0.
  unfold Realtime.fog. split_rule; score_step.
Qed.

Lemma fc_fog_nonneg fog_policy code st :
  0 <= score st → 0 <= score (Forecast.fog policy fog_policy code st).
Proof.
  pose proof (nonneg_weights_spec _ Hw). intros H0.
  unfold Forecast.fog. split_rule; score_step.
Qed.

Lemma rt_wind_nonneg wind gust st st' :
  Realtime.wind_rule policy wind gust st = Some st' →
  0 <= score st → 0 <= score st'.
Proof.
  pose proof (nonneg_weights_spec _ Hw).
  unfold Realtime.wind_rule, or_else, py_ge, py_format_f.
  destruct wind, gust; simpl; split_rule; score_step.
Qed.

Lemma rt_precip_nonneg precip st st' :
  Realtime.precip_rule policy precip st = Some st' →
  0 <= score st → 0 <= score st'.
Proof.
  pose proof (nonneg_weights_spec _ Hw).
  unfold Realtime.precip_rule, py_ge, py_format_f.
  destruct precip; simpl; split_rule; score_step.
Qed.

Lemma fc_wind_nonneg wind gust st st' :
  Forecast.wind_rule policy wind gust st = Some st' →
  0 <= score st → 0 <= score st'.
Proof.
  pose proof (nonneg_weights_spec _ Hw).
  unfold Forecast.wind_rule, or_else, py_ge, py_format_f.
  destruct wind, gust; simpl; split_rule; score_step.
Qed.

Lemma fc_precip_nonneg precip st st' :
  Forecast.precip_rule policy precip st = Some st' →
  0 <= score st → 0 <= score st'.
Proof.
  pose proof (nonneg_weights_spec _ Hw).
  unfold Forecast.precip_rule, py_ge, py_format_f.
  destruct precip; simpl; split_rule; score_step.
Qed.

Lemma rt_waves_nonneg wave_h st :
  0 <= score st → 0 <= score (Realtime.waves policy wave_h st).
Proof.
  pose proof (nonneg_weights_spec _ Hw). intros H0.
  unfold Realtime.waves. split_rule; score_step.
Qed.

Lemma rt_swell_nonneg swell_h swell_p st :
  0 <= score st → 0 <= score (Realtime.swell policy swell_h swell_p st).
Proof.
  pose proof (nonneg_weights_spec _ Hw). intros H0.
  unfold Realtime.swell. split_rule; score_step.
Qed.

Lemma rt_comfort_score air_c st :
  score (Realtime.comfort air_c st) = score st.
Proof. unfold Realtime.comfort. split_rule; reflexivity. Qed.

Lemma fc_marine_nonneg marine st :
  0 <= score st → 0 <= score (Forecast.marine_rules policy marine st).
Proof.
  pose proof (nonneg_weights_spec _ Hw). intros H0.
  unfold Forecast.marine_rules, Forecast.waves, Forecast.swell.
  split_rule; score_step.
Qed.

Lemma rt_rules_nonneg r fog_policy st :
  Realtime.rules r policy fog_policy = Some st → 0 <= score st.
Proof.
  unfold Realtime.rules.
  destruct (py_add _ _) as [precip|]; simpl; [|discriminate].
  destruct (Realtime.wind_rule policy _ _ _) as [s1|] eqn:H1; simpl;
    [|discriminate].
  destruct (Realtime.precip_rule policy _ _) as [s2|] eqn:H2; simpl;
    [|discriminate].
  intros [= <-]. rewrite rt_comfort_score.
  apply rt_swell_nonneg, rt_waves_nonneg.
  apply (rt_precip_nonneg _ _ _ H2), (rt_wind_nonneg _ _ _ _ H1).
  apply rt_fog_nonneg. unfold Realtime.thunderstorm.
  destruct (_ && _); simpl; lia.
Qed.

Lemma fc_hour_nonneg fog_policy h st fl :
  Forecast.hour policy fog_policy h st = Some fl →
  0 <= score st →
  0 <= score (match fl with Continue st' | Break st' => st' end).
Proof.
  unfold Forecast.hour.
  destruct (py_add _ _) as [precip|]; simpl; [|discriminate].
  destruct (_ && _); [intros [= <-]; simpl; lia|].
  destruct (Forecast.wind_rule policy _ _ _) as [s1|] eqn:H1; simpl;
    [|discriminate].
  destruct (Forecast.precip_rule policy _ _) as [s2|] eqn:H2; simpl;
    [|discriminate].
  intros [= <-] H0.
  apply (fc_precip_nonneg _ _ _ H2), (fc_wind_nonneg _ _ _ _ H1).
  apply fc_fog_nonneg, H0.
Qed.

Lemma fc_scan_nonneg fog_policy hours st st' :
  Forecast.scan policy fog_policy hours st = Some st' →
  0 <= score st → 0 <= score st'.
Proof.
  revert st. induction hours as [|h hours IH]; intros st; simpl.
  - intros [= <-]. exact id.
  - destruct (Forecast.hour policy fog_policy h st) as [fl|] eqn:Hh;
      [|discriminate].
    pose proof (fc_hour_nonneg _ _ _ _ Hh) as Hfl.
    destruct fl as [s1|s1]; [|intros [= <-]; exact Hfl].
    intros Hs H0. apply (IH _ Hs), Hfl, H0.
Qed.

End Nonneg.

Lemma _map_status_known sc hard policy : _map_status sc hard policy ≠ Unknown.
Proof. unfold _map_status. split_rule; discriminate. Qed.

Lemma finish_not_negative policy st :
  0 <= score st → score_not_negative (finish policy st).
Proof.
  intros H0. unfold score_not_negative, finish. simpl.
  split; [destruct (hard_unsafe st); lia | apply _map_status_known].
Qed.


(** ** C10: a forecast verdict has no tips *)

Lemma fc_fog_tips policy fog_policy code st :
  tips (Forecast.fog policy fog_policy code st) = tips st.
Proof. unfold Forecast.fog. split_rule; reflexivity. Qed.

Lemma fc_wind_tips policy wind gust st st' :
  Forecast.wind_rule policy wind gust st = Some st' → tips st' = tips st.
Proof.
  unfold Forecast.wind_rule, or_else, py_ge, py_format_f.
  destruct wind, gust; simpl; split_rule; intros [= <-]; reflexivity.
Qed.

Lemma fc_precip_tips policy precip st st' :
  Forecast.precip_rule policy precip st = Some st' → tips st' = tips st.
Proof.
  unfold Forecast.precip_rule, py_ge, py_format_f.
  destruct precip; simpl; split_rule; intros [= <-]; reflexivity.
Qed.

Lemma fc_hour_tips policy fog_policy h st fl :
  Forecast.hour policy fog_policy h st = Some fl →
  tips (match fl with Continue st' | Break st' => st' end) = tips st.
Proof.
  unfold Forecast.hour.
  destruct (py_add _ _) as [precip|]; simpl; [|discriminate].
  destruct (_ && _); [intros [= <-]; reflexivity|].
  destruct (Forecast.wind_rule policy _ _ _) as [s1|] eqn:H1; simpl;
    [|discriminate].
  destruct (Forecast.precip_rule policy _ _) as [s2|] eqn:H2; simpl;
    [|discriminate].
  intros [= <-].
  rewrite (fc_precip_tips _ _ _ _ H2), (fc_wind_tips _ _ _ _ _ H1).
  apply fc_fog_tips.
Qed.

Lemma fc_scan_tips policy fog_policy hours st st' :
  Forecast.scan policy fog_policy hours st = Some st' → tips st' = tips st.
Proof.
  revert st. induction hours as [|h hours IH]; intros st; simpl.
  - intros [= <-]. reflexivity.
  - destruct (Forecast.hour policy fog_policy h st) as [fl|] eqn:Hh;
      [|discriminate].
    pose proof (fc_hour_tips _ _ _ _ _ Hh) as Hfl.
    destruct fl as [s1|s1]; [|intros [= <-]; exact Hfl].
    intros Hs. rewrite (IH _ Hs). exact Hfl.
Qed.

(** C10.  Whatever the forecast, the policy and the fog policy, a verdict
    of [assess_forecast] has no tips: neither the hourly scan nor the daily
    marine rules append one. *)
Theorem C10_forecast_no_tips f policy fog_policy v :
  assess_forecast f policy fog_policy = Some v → v_tips v = [].
Proof.
  unfold assess_forecast. destruct (hourly f) as [|h hours].
  - intros [= <-]. reflexivity.
  - destruct (Forecast.scan _ _ _ init) as [st|] eqn:Hst; simpl;
      [|discriminate].
    intros [= <-]. simpl. rewrite fc_marine_frame. simpl.
    rewrite (fc_scan_tips _ _ _ _ _ Hst).
    destruct (fc_marine_plain policy (default ∅ (marine_daily f))) as [_ ->].
    reflexivity.
Qed.

(** ** C7: fog in real time *)

Lemma dget_delete_ne (d : pydict) (k k' : string) :
  k ≠ k' → dget (delete k d) k' = dget d k'.
Proof. intros Hne. unfold dget. rewrite lookup_delete_ne by exact Hne. reflexivity. Qed.

Lemma dget_delete_eq (d : pydict) (k : string) : dget (delete k d) k = PyNone.
Proof. unfold dget. rewrite lookup_delete_eq. reflexivity. Qed.

Lemma dget_empty (k : string) : dget ∅ k = PyNone.
Proof. unfold dget. rewrite lookup_empty. reflexivity. Qed.

Lemma rt_fog_fires policy fog_policy code st :
  is_fog code = true →
  Realtime.fog policy fog_policy code st
  = let st' := add_tip Realtime.fog_tip (add_reason Realtime.fog_reason st) in
    match fog_policy with
    | FogScore => add_score (score_fog_realtime policy) st'
    | FogCaution => floor_score (band_caution_min policy) st'
    | FogWarn => st'
    end.
Proof. unfold Realtime.fog, is_fog. intros ->. reflexivity. Qed.

Lemma rt_no_code policy fog_policy :
  Realtime.fog policy fog_policy PyNone
    (Realtime.thunderstorm policy PyNone init) = init.
Proof.
  unfold Realtime.fog, Realtime.thunderstorm. simpl.
  rewrite andb_false_r. reflexivity.
Qed.

Lemma rt_wind_hard policy wind gust st st' :
  Realtime.wind_rule policy wind gust st = Some st' →
  hard_unsafe st' = hard_unsafe st.
Proof.
  unfold Realtime.wind_rule, or_else, py_ge, py_format_f.
  destruct wind, gust; simpl; split_rule; intros [= <-]; reflexivity.
Qed.

Lemma rt_precip_hard policy precip st st' :
  Realtime.precip_rule policy precip st = Some st' →
  hard_unsafe st' = hard_unsafe st.
Proof.
  unfold Realtime.precip_rule, py_ge, py_format_f.
  destruct precip; simpl; split_rule; intros [= <-]; reflexivity.
Qed.

Lemma rt_sea_hard policy air_c wave_h swell_h swell_p st :
  hard_unsafe (Realtime.comfort air_c
                 (Realtime.swell policy swell_h swell_p
                    (Realtime.waves policy wave_h st)))
  = hard_unsafe st.
Proof.
  rewrite rt_comfort_frame, rt_swell_frame, rt_waves_frame.
  unfold Realtime.comfort, Realtime.swell, Realtime.waves.
  split_rule; rewrite ?orb_false_r; reflexivity.
Qed.

Lemma rt_tail_plain policy wx sea precip d :
  rt_tail policy wx sea precip init = Some d → hard_unsafe d = false.
Proof.
  unfold rt_tail. intros H.
  destruct (Realtime.wind_rule policy _ _ init) as [s1|] eqn:H1;
    simpl in H; [|discriminate].
  destruct (Realtime.precip_rule policy precip s1) as [s2|] eqn:H2;
    simpl in H; [|discriminate].
  injection H as <-.
  rewrite rt_sea_hard, (rt_precip_hard _ _ _ _ H2), (rt_wind_hard _ _ _ _ _ H1).
  reflexivity.
Qed.

Lemma rt_rules_without_code r policy fog_policy :
  Realtime.rules (without_code r) policy fog_policy
  = (let wx := default ∅ (weather r) in
     precip ← py_add (or_zero (dget wx "precipitation_mm"))
                     (or_zero (dget wx "rain_mm"));
     rt_tail policy wx (default ∅ (marine r)) precip init).
Proof.
  unfold Realtime.rules, rt_tail, without_code. simpl.
  destruct (weather r) as [wx|]; simpl.
  - rewrite dget_delete_eq, !dget_delete_ne by discriminate.
    rewrite rt_no_code. reflexivity.
  - rewrite !dget_empty, rt_no_code. reflexivity.
Qed.

Lemma rt_rules_fog r policy fog_policy :
  is_fog (weather_code r) = true →
  Realtime.rules r policy fog_policy
  = combine (fog_share policy fog_policy)
      <$> Realtime.rules (without_code r) policy fog_policy.
Proof.
  intros Hfog. rewrite rt_rules_without_code, rt_rules_unfold. cbv zeta.
  destruct (py_add _ _) as [precip|]; simpl; [|reflexivity].
  unfold Realtime.thunderstorm.
  fold (is_thunderstorm (weather_code r)).
  rewrite (fog_not_thunderstorm _ Hfog), andb_false_r.
  rewrite rt_fog_fires by exact Hfog.
  rewrite rt_tail_frame. f_equal. f_equal.
  destruct fog_policy; state_eq.
Qed.

(** C7.  In [assess_realtime], when the weather code is 45 or 48, the fog
    rule appends the visibility reason and the tip under each of the three
    fog policies, and on the running score it adds the fog-realtime weight
    under "score", takes the maximum with the caution band minimum under
    "caution" (a floor, not an addition), and changes nothing under "warn".
    In the verdict: the fog reason and the fog tip come first, followed by
    the reasons and tips of the same reading without its weather code, and
    the score is the score of that reading plus the weight ("score"), plus
    [max 0 caution_min] ("caution"), or unchanged ("warn"). *)
Theorem C7_fog_realtime r policy fog_policy :
  is_fog (weather_code r) = true →
  (∀ st,
     let st' := Realtime.fog policy fog_policy (weather_code r) st in
     score st' = match fog_policy with
                 | FogScore => score st + score_fog_realtime policy
                 | FogCaution => Z.max (score st) (band_caution_min policy)
                 | FogWarn => score st
                 end
     ∧ hard_unsafe st' = hard_unsafe st
     ∧ reasons st' = reasons st ++ [Realtime.fog_reason]
     ∧ tips st' = tips st ++ [Realtime.fog_tip])
  ∧ assess_realtime r policy fog_policy
    = (λ v0, {| v_status :=
                  _map_status (fog_points policy fog_policy
                               + default 0 (v_score v0)) false policy;
                v_score := Some (fog_points policy fog_policy
                                 + default 0 (v_score v0));
                v_reasons := Realtime.fog_reason :: v_reasons v0;
                v_tips := Realtime.fog_tip :: v_tips v0 |})
        <$> assess_realtime (without_code r) policy fog_policy.
Proof.
  intros Hfog. split.
  - intros st. cbv zeta. rewrite rt_fog_fires by exact Hfog.
    destruct fog_policy; simpl; repeat split; reflexivity.
  - unfold assess_realtime. rewrite rt_rules_fog by exact Hfog.
    rewrite rt_rules_without_code. cbv zeta.
    destruct (py_add _ _) as [precip|]; simpl; [|reflexivity].
    destruct (rt_tail policy _ _ precip init) as [d|] eqn:Hd; simpl;
      [|reflexivity].
    assert (Hhard : hard_unsafe d = false).
    { apply (rt_tail_plain _ _ _ _ _ Hd). }
    destruct (rt_tail_heads _ _ _ _ _ Hd) as [Hr Ht].
    unfold finish. simpl. rewrite Hhard. simpl. f_equal. f_equal.
    + apply dedupe_cons_fresh.
      apply (head_among_fresh rt_reason_heads); [exact Hr | reflexivity].
    + apply dedupe_cons_fresh.
      apply (head_among_fresh rt_tip_heads); [exact Ht | reflexivity].
Qed.

(** ** C8: a missing wave height is penalised, a missing swell is not *)

Lemma dget_insert_eq (d : pydict) (k : string) (v : pyval) :
  dget (<[k := v]> d) k = v.
Proof. unfold dget. rewrite lookup_insert_eq. reflexivity. Qed.

Lemma dget_insert_ne (d : pydict) (k k' : string) (v : pyval) :
  k ≠ k' → dget (<[k := v]> d) k' = dget d k'.
Proof. intros Hne. unfold dget. rewrite lookup_insert_ne by exact Hne. reflexivity. Qed.

Lemma rt_waves_missing policy wave_h st :
  is_number wave_h = false →
  Realtime.waves policy wave_h st
  = add_score (score_missing_waves policy)
      (add_reason Realtime.missing_waves_reason st).
Proof. destruct wave_h; simpl; try discriminate; reflexivity. Qed.

Lemma rt_waves_calm policy x st :
  calm_waves policy x = true → Realtime.waves policy (PyNum x) st = st.
Proof.
  unfold calm_waves, Realtime.waves.
  rewrite !andb_true_iff, !negb_true_iff. intros [[-> ->] ->]. reflexivity.
Qed.

Lemma rt_swell_missing policy swell_h swell_p st :
  is_number swell_h = false ∨ is_number swell_p = false →
  Realtime.swell policy swell_h swell_p st = st.
Proof.
  destruct swell_h, swell_p; simpl; intros [H|H]; try discriminate;
    reflexivity.
Qed.

Lemma rt_swell_calm policy h per st :
  calm_swell policy h per = true →
  Realtime.swell policy (PyNum h) (PyNum per) st = st.
Proof.
  unfold calm_swell, Realtime.swell.
  rewrite !andb_true_iff, !negb_true_iff. intros [[-> ->] ->]. reflexivity.
Qed.

Local Arguments Realtime.waves : simpl never.
Local Arguments Realtime.swell : simpl never.
Local Arguments Realtime.comfort : simpl never.

(** The totals before and after the sea-state rules. *)
Lemma rt_rules_sea r policy fog_policy :
  Realtime.rules r policy fog_policy
  = (let wx := default ∅ (weather r) in
     let sea := default ∅ (marine r) in
     precip ← py_add (or_zero (dget wx "precipitation_mm"))
                     (or_zero (dget wx "rain_mm"));
     st ← Realtime.wind_rule policy (or_zero (dget wx "wind_speed_10m_kmh"))
            (or_zero (dget wx "wind_gusts_10m_kmh"))
            (Realtime.fog policy fog_policy (weather_code r)
               (Realtime.thunderstorm policy (weather_code r) init));
     st ← Realtime.precip_rule policy precip st;
     Some (Realtime.comfort (dget wx "temperature_2m_c")
             (Realtime.swell policy (dget sea "swell_wave_height_m")
                (dget sea "swell_wave_period_s")
                (Realtime.waves policy (dget sea "wave_height_m") st)))).
Proof. reflexivity. Qed.

(** C8.  In [assess_realtime], a wave height that is absent or not a number
    adds the missing-waves weight to the running score and appends the
    "incomplete sea-state" reason: against the same reading with a calm
    numeric wave height, the score is higher by that weight and the reason
    is one more entry, which is in the verdict.  A swell height or a swell
    period that is absent or not a number adds nothing: the totals are
    those of the same reading with a calm numeric swell. *)
Theorem C8_missing_sea_state r policy fog_policy :
  let sea := default ∅ (marine r) in
  (is_number (dget sea "wave_height_m") = false →
   (∀ st, Realtime.waves policy (dget sea "wave_height_m") st
          = add_score (score_missing_waves policy)
              (add_reason Realtime.missing_waves_reason st))
   ∧ (∀ x, calm_waves policy x = true →
        match Realtime.rules r policy fog_policy,
              Realtime.rules (with_marine "wave_height_m" (PyNum x) r)
                policy fog_policy with
        | Some st, Some st0 =>
            score st = score st0 + score_missing_waves policy
            ∧ hard_unsafe st = hard_unsafe st0
            ∧ tips st = tips st0
            ∧ ∃ before after,
                reasons st0 = before ++ after
                ∧ reasons st
                  = before ++ Realtime.missing_waves_reason :: after
        | None, None => True
        | _, _ => False
        end)
   ∧ (∀ v, assess_realtime r policy fog_policy = Some v →
           Realtime.missing_waves_reason ∈ v_reasons v))
  ∧ (is_number (dget sea "swell_wave_height_m") = false
     ∨ is_number (dget sea "swell_wave_period_s") = false →
     (∀ st, Realtime.swell policy (dget sea "swell_wave_height_m")
              (dget sea "swell_wave_period_s") st = st)
     ∧ (∀ h per, calm_swell policy h per = true →
          assess_realtime r policy fog_policy
          = assess_realtime
              (with_marine "swell_wave_height_m" (PyNum h)
                 (with_marine "swell_wave_period_s" (PyNum per) r))
              policy fog_policy)).
Proof.
  intros sea. split.
  - intros Hwave. split; [|split].
    + intros st. apply rt_waves_missing, Hwave.
    + intros x Hcalm. rewrite !rt_rules_sea. cbv zeta.
      unfold with_marine, weather_code. simpl. fold sea.
      rewrite dget_insert_eq, !dget_insert_ne by discriminate.
      destruct (py_add _ _) as [precip|]; simpl; [|exact I].
      destruct (Realtime.wind_rule policy _ _ _) as [s1|]; simpl; [|exact I].
      destruct (Realtime.precip_rule policy precip s1) as [s2|]; simpl;
        [|exact I].
      rewrite rt_waves_missing by exact Hwave.
      rewrite rt_waves_calm by exact Hcalm.
      rewrite !(rt_comfort_frame _ (Realtime.swell _ _ _ _)).
      rewrite (rt_swell_frame _ _ _ (add_score _ _)).
      rewrite (rt_swell_frame _ _ _ s2).
      set (dswell := Realtime.swell policy _ _ init).
      set (dair := Realtime.comfort _ init).
      simpl. repeat split; try lia.
      exists (reasons s2), (reasons dswell ++ reasons dair).
      rewrite <- !app_assoc. split; reflexivity.
    + intros v. unfold assess_realtime. rewrite rt_rules_sea. cbv zeta.
      fold sea.
      destruct (py_add _ _) as [precip|]; simpl; [|discriminate].
      destruct (Realtime.wind_rule policy _ _ _) as [s1|]; simpl;
        [|discriminate].
      destruct (Realtime.precip_rule policy precip s1) as [s2|]; simpl;
        [|discriminate].
      intros [= <-]. simpl. rewrite elem_of_dedupe.
      rewrite rt_waves_missing by exact Hwave.
      rewrite rt_comfort_frame, rt_swell_frame. simpl.
      rewrite !elem_of_app, list_elem_of_singleton. tauto.
  - intros Hswell. split.
    + intros st. apply rt_swell_missing, Hswell.
    + intros h per Hcalm. unfold assess_realtime. f_equal.
      rewrite !rt_rules_sea. cbv zeta.
      unfold with_marine, weather_code. simpl. fold sea.
      rewrite !dget_insert_eq.
      rewrite (dget_insert_ne _ "swell_wave_height_m" "swell_wave_period_s")
        by discriminate.
      rewrite dget_insert_eq, !dget_insert_ne by discriminate.
      destruct (py_add _ _) as [precip|]; simpl; [|reflexivity].
      destruct (Realtime.wind_rule policy _ _ _) as [s1|]; simpl;
        [|reflexivity].
      destruct (Realtime.precip_rule policy precip s1) as [s2|]; simpl;
        [|reflexivity].
      rewrite (rt_swell_missing policy (dget sea "swell_wave_height_m"))
        by exact Hswell.
      rewrite rt_swell_calm by exact Hcalm. reflexivity.
Qed.

(** ** C9: the breeze scenario *)

(** C9.  For the reading with weather code 3, wind 25 km/h, gusts 20 km/h,
    no precipitation and a wave height of 1.2 m, under the default policy
    and fog policy "score", [assess_realtime] returns score 23, the
    moderate-wind weight 15 plus the moderate-wave weight 8, status Caution,
    and exactly two reasons: the moderate-wind one, then the moderate-wave
    one. *)
Theorem C9_breeze_scenario :
  assess_realtime breeze_reading default_policy FogScore
  = Some {| v_status := Caution;
            v_score := Some (score_wind_mod default_policy
                             + score_wave_moderate default_policy);
            v_reasons := ["Moderate wind/gusts (25/20 km/h).";
                          "Moderate waves (1.20 m)."];
            v_tips := ["Prefer protected entry/exit; monitor drift."] |}
  ∧ score_wind_mod default_policy + score_wave_moderate default_policy = 23.
Proof. split; vm_compute; reflexivity. Qed.

(** The same with 1.2 as the binary64 number nearest to it. *)
Example breeze_scenario_binary64 :
  assess_realtime
    (with_marine "wave_height_m"
       (PyNum (5404319552844595 # 4503599627370496)) breeze_reading)
    default_policy FogScore
  = assess_realtime breeze_reading default_policy FogScore.
Proof. vm_compute. reflexivity. Qed.

(** Under the abbreviated key names no wind entry is read: only the wave
    rule fires. *)
Example breeze_scenario_short_keys :
  assess_realtime breeze_reading_short_keys default_policy FogScore
  = Some {| v_status := Safe; v_score := Some 8;
            v_reasons := ["Moderate waves (1.20 m)."]; v_tips := [] |}.
Proof. vm_compute. reflexivity. Qed.

(** ** C6: the hourly rules against the real-time rules *)

Example breezy_hour_forecast :
  Forecast.hour default_policy FogScore breezy_hour init
  = Some (Continue {| score := 15; hard_unsafe := false;
                      reasons := ["Moderate winds forecast (25/0 km/h)."];
                      tips := [] |}).
Proof. vm_compute. reflexivity. Qed.

Example breezy_hour_spec :
  Spec.hour_rules default_policy FogScore breezy_hour init
  = Some {| score := 15; hard_unsafe := false;
            reasons := ["Moderate wind/gusts (25/0 km/h)."];
            tips := ["Prefer protected entry/exit; monitor drift."] |}.
Proof. vm_compute. reflexivity. Qed.

Example stormy_hour_forecast :
  Forecast.hour default_policy FogScore stormy_hour init
  = Some (Break {| score := 0; hard_unsafe := true;
                   reasons := ["Thunderstorm forecast (lightning risk)."];
                   tips := [] |}).
Proof. vm_compute. reflexivity. Qed.

Example stormy_hour_spec :
  Spec.hour_rules default_policy FogScore stormy_hour init
  = Some {| score := 40; hard_unsafe := true;
            reasons := ["Thunderstorm in area (lightning risk).";
                        "Strong wind/gusts (30/0 km/h)."];
            tips := ["Expect chop; consider sheltered site or postponing."] |}.
Proof. vm_compute. reflexivity. Qed.

(** C6, as stated, fails: on an hour of moderate wind the real-time rules
    append a tip and the hourly rules none, and on an hour of thunderstorm
    the hourly rules leave the loop before the wind rule, which the
    real-time rules still evaluate. *)
Lemma C6_hourly_rules_counterexample :
  (∃ a b, Forecast.hour default_policy FogScore breezy_hour init = Some a
          ∧ Spec.hour_rules default_policy FogScore breezy_hour init = Some b
          ∧ tips (after_hour a) = []
          ∧ tips b = ["Prefer protected entry/exit; monitor drift."]
          ∧ after_hour a ≠ b)
  ∧ (∃ a b, Forecast.hour default_policy FogScore stormy_hour init = Some a
            ∧ Spec.hour_rules default_policy FogScore stormy_hour init = Some b
            ∧ score (after_hour a) = 0 ∧ score b = 40
            ∧ length (reasons (after_hour a)) = 1%nat
            ∧ length (reasons b) = 2%nat).
Proof.
  split.
  - eexists. eexists.
    split; [apply breezy_hour_forecast|].
    split; [apply breezy_hour_spec|].
    simpl. repeat split. discriminate.
  - eexists. eexists.
    split; [apply stormy_hour_forecast|].
    split; [apply stormy_hour_spec|].
    simpl. repeat split.
Qed.

Lemma same_scoring_refl st : same_scoring st st.
Proof. repeat split. Qed.

Ltac split_tests :=
  repeat match goal with
    | |- context [Qle_bool ?x ?y] => destruct (Qle_bool x y); simpl
    end.

Ltac scoring_step :=
  unfold same_scoring; simpl; rewrite ?length_app; simpl;
  intros (Hs & Hh & Hl); try exact I; repeat split; congruence.

Lemma fog_same_scoring policy fog_policy code a b :
  same_scoring a b →
  same_scoring (Forecast.fog policy fog_policy code a)
    (Spec.fog (score_fog_forecast policy) policy fog_policy code b).
Proof. unfold Forecast.fog, Spec.fog. split_rule; scoring_step. Qed.

Lemma wind_same_scoring policy wind gust a b :
  same_scoring a b →
  match Forecast.wind_rule policy wind gust a,
        Realtime.wind_rule policy wind gust b with
  | Some a', Some b' => same_scoring a' b'
  | None, None => True
  | _, _ => False
  end.
Proof.
  unfold Forecast.wind_rule, Realtime.wind_rule, or_else, py_ge, py_format_f.
  destruct wind, gust; simpl; split_tests; scoring_step.
Qed.

Lemma precip_same_scoring policy precip a b :
  same_scoring a b →
  match Forecast.precip_rule policy precip a,
        Realtime.precip_rule policy precip b with
  | Some a', Some b' => same_scoring a' b'
  | None, None => True
  | _, _ => False
  end.
Proof.
  unfold Forecast.precip_rule, Realtime.precip_rule, py_ge, py_format_f.
  destruct precip; simpl; split_tests; scoring_step.
Qed.

(** C6, amended.  For every hour [h] and running totals [st], with the
    rules of the specification being steps 1 to 4 of [assess_realtime] with
    the fog-forecast weight as the fog weight:
    - when [h] does not trigger the thunderstorm hard stop, the hourly rules
      of [assess_forecast] fire under the same conditions and add the same
      weights (the same score, the same flag, as many reasons, in the
      wording of the forecast), raise on the same inputs, and append no tip;
    - when [h] triggers the hard stop, the hourly rules append the
      thunderstorm reason, set [hard_unsafe] and leave the loop: the wind
      and precipitation rules of that hour are not evaluated. *)
Theorem C6_hourly_rules policy fog_policy h st :
  let stop := thunderstorm_hard_stop policy
              && is_thunderstorm (dget h "weather_code") in
  match Forecast.hour policy fog_policy h st,
        Spec.hour_rules policy fog_policy h st with
  | Some (Continue a), Some b =>
      stop = false ∧ same_scoring a b ∧ tips a = tips st
  | Some (Break a), _ =>
      stop = true
      ∧ a = set_hard_unsafe (add_reason Forecast.thunderstorm_reason st)
  | None, None => True
  | _, _ => False
  end.
Proof.
  intros stop.
  destruct (Forecast.hour policy fog_policy h st) as [fl|] eqn:Hfl.
  - pose proof (fc_hour_tips _ _ _ _ _ Hfl) as Htips. revert Hfl Htips.
    unfold Forecast.hour, Spec.hour_rules, Realtime.thunderstorm.
    fold (is_thunderstorm (dget h "weather_code")). fold stop.
    destruct (py_add _ _) as [precip|]; simpl; [|discriminate].
    destruct stop.
    + intros [= <-] _. split; reflexivity.
    + pose proof (fog_same_scoring policy fog_policy (dget h "weather_code")
                    _ _ (same_scoring_refl st)) as Hfog.
      pose proof (wind_same_scoring policy
                    (or_zero (dget h "wind_speed_10m_kmh"))
                    (or_zero (dget h "wind_gusts_10m_kmh")) _ _ Hfog) as Hwind.
      destruct (Forecast.wind_rule policy _ _ _) as [a1|]; simpl;
        [|discriminate].
      destruct (Realtime.wind_rule policy _ _ _) as [b1|]; simpl;
        [|contradiction].
      pose proof (precip_same_scoring policy precip _ _ Hwind) as Hprecip.
      destruct (Forecast.precip_rule policy precip a1) as [a2|]; simpl;
        [|discriminate].
      destruct (Realtime.precip_rule policy precip b1) as [b2|]; simpl;
        [|contradiction].
      intros [= <-] Htips. repeat split; try apply Hprecip. exact Htips.
  - revert Hfl.
    unfold Forecast.hour, Spec.hour_rules, Realtime.thunderstorm.
    fold (is_thunderstorm (dget h "weather_code")). fold stop.
    destruct (py_add _ _) as [precip|]; simpl; [|intros _; exact I].
    destruct stop; [discriminate|].
    pose proof (fog_same_scoring policy fog_policy (dget h "weather_code")
                  _ _ (same_scoring_refl st)) as Hfog.
    pose proof (wind_same_scoring policy
                  (or_zero (dget h "wind_speed_10m_kmh"))
                  (or_zero (dget h "wind_gusts_10m_kmh")) _ _ Hfog) as Hwind.
    destruct (Forecast.wind_rule policy _ _ _) as [a1|]; simpl.
    + destruct (Realtime.wind_rule policy _ _ _) as [b1|]; simpl;
        [|contradiction].
      pose proof (precip_same_scoring policy precip _ _ Hwind) as Hprecip.
      destruct (Forecast.precip_rule policy precip a1) as [a2|]; simpl;
        [discriminate|].
      destruct (Realtime.precip_rule policy precip b1) as [b2|];
        [contradiction | intros _; exact I].
    + destruct (Realtime.wind_rule policy _ _ _) as [b1|]; simpl;
        [contradiction | intros _; exact I].
Qed.

(** ** The theorems at sample inputs *)

Example storm_reading_verdict :
  assess_realtime storm_reading default_policy FogScore
  = Some {| v_status := Unsafe; v_score := Some 100;
            v_reasons := ["Thunderstorm in area (lightning risk).";
                          "Strong wind/gusts (30/0 km/h).";
                          Realtime.missing_waves_reason];
            v_tips := ["Expect chop; consider sheltered site or postponing."] |}.
Proof. vm_compute. reflexivity. Qed.

Example storm_forecast_verdict :
  assess_forecast storm_forecast default_policy FogScore
  = Some {| v_status := Unsafe; v_score := Some 100;
            v_reasons := ["Moderate winds forecast (25/0 km/h).";
                          "Thunderstorm forecast (lightning risk).";
                          Forecast.missing_waves_reason];
            v_tips := [] |}.
Proof. vm_compute. reflexivity. Qed.

Example breezy_forecast_verdict :
  assess_forecast breezy_forecast default_policy FogScore
  = Some {| v_status := Caution; v_score := Some 53;
            v_reasons := ["Moderate winds forecast (25/0 km/h).";
                          "Moderate waves up to 1.20 m."];
            v_tips := [] |}.
Proof. vm_compute. reflexivity. Qed.

Example fog_reading_verdicts :
  assess_realtime fog_reading default_policy FogScore
  = Some {| v_status := Caution; v_score := Some 25;
            v_reasons := [Realtime.fog_reason;
                          "Moderate wind/gusts (25/0 km/h)."];
            v_tips := [Realtime.fog_tip;
                       "Prefer protected entry/exit; monitor drift."] |}
  ∧ v_score <$> assess_realtime fog_reading default_policy FogCaution
    = Some (Some 35)
  ∧ v_score <$> assess_realtime fog_reading default_policy FogWarn
    = Some (Some 15).
Proof. repeat split; vm_compute; reflexivity. Qed.





Lemma C7_fog_realtime_witness :
  is_fog (weather_code fog_reading) = true
  ∧ v_reasons <$> assess_realtime fog_reading default_policy FogCaution
    = Some [Realtime.fog_reason; "Moderate wind/gusts (25/0 km/h)."].
Proof.
  split; [vm_compute; reflexivity|].
  destruct (C7_fog_realtime fog_reading default_policy FogCaution) as [_ ->];
    [vm_compute; reflexivity|].
  vm_compute. reflexivity.
Defined.

Lemma C8_missing_sea_state_witness :
  is_number (dget (default ∅ (marine empty_reading)) "wave_height_m") = false
  ∧ is_number (dget (default ∅ (marine empty_reading))
                 "swell_wave_height_m") = false
  ∧ ∃ v, assess_realtime empty_reading default_policy FogScore = Some v
         ∧ Realtime.missing_waves_reason ∈ v_reasons v.
Proof.
  split; [reflexivity|]. split; [reflexivity|].
  destruct (C8_missing_sea_state empty_reading default_policy FogScore)
    as [Hwave _].
  destruct Hwave as (_ & _ & Hin); [reflexivity|].
  eexists. split; [vm_compute; reflexivity|].
  apply Hin. vm_compute. reflexivity.
Defined.

Lemma C10_forecast_no_tips_witness :
  ∃ v, assess_forecast breezy_forecast default_policy FogScore = Some v
       ∧ v_tips v = [].
Proof.
  eexists. split; [apply breezy_forecast_verdict|].
  apply (C10_forecast_no_tips breezy_forecast default_policy FogScore).
  apply breezy_forecast_verdict.
Defined.

(** * Further properties of the engine *)

(** ** [_map_status] *)

Lemma map_status_le policy (s s' : Z) (h h' : bool) :
  s <= s' → (h = true → h' = true) →
  status_le (_map_status s h policy) (_map_status s' h' policy) = true.
Proof.
  intros Hs Hh. unfold _map_status.
  destruct h; [rewrite (Hh eq_refl); reflexivity|].
  destruct h'.
  - destruct (_ <=? s); [reflexivity|]. destruct (_ <=? s); reflexivity.
  - destruct (Z.leb_spec (band_unsafe_min policy) s);
      destruct (Z.leb_spec (band_unsafe_min policy) s'); try reflexivity;
      try lia;
      destruct (Z.leb_spec (band_caution_min policy) s);
      destruct (Z.leb_spec (band_caution_min policy) s'); try reflexivity;
      lia.
Qed.

(** X1.  [_map_status] is monotone: a higher score, or a hard stop, never
    gives a milder status, whatever the two band minimums are. *)
Theorem map_status_monotone policy (s s' : Z) (h h' : bool) :
  s <= s' → (h = true → h' = true) →
  status_le (_map_status s h policy) (_map_status s' h' policy) = true.
Proof. apply map_status_le. Qed.


Lemma map_status_monotone_witness :
  (10 <= 25) ∧ (false = true → false = true)
  ∧ status_le (_map_status 10 false default_policy)
      (_map_status 25 false default_policy) = true.
Proof.
  split; [lia|]. split; [exact id|].
  apply map_status_monotone; [lia | exact id].
Defined.

(** ** [_dedupe] *)

Lemma dedupe_from_sublist (T : gset string) (l : list string) :
  sublist (dedupe_from T l) l.
Proof.
  revert T. induction l as [|x l IH]; intros T; simpl; [constructor|].
  destruct (decide (x ∈ T)); [apply sublist_cons | apply sublist_skip];
    apply IH.
Qed.

(** X2.  The result of [_dedupe] has no duplicates, has exactly the
    elements of its argument, and keeps them in the order of the argument. *)
Theorem dedupe_distinct_same_elements (l : list string) :
  NoDup (_dedupe l)
  ∧ (∀ s, s ∈ _dedupe l ↔ s ∈ l)
  ∧ sublist (_dedupe l) l.
Proof.
  split; [apply NoDup_dedupe_from|].
  split; [intros s; apply elem_of_dedupe | apply dedupe_from_sublist].
Qed.

Lemma dedupe_from_app (T : gset string) (l1 l2 : list string) :
  dedupe_from T (l1 ++ l2)
  = dedupe_from T l1 ++ dedupe_from (list_to_set l1 ∪ T) l2.
Proof.
  revert T. induction l1 as [|x l1 IH]; intros T; simpl.
  - f_equal. symmetry. apply (left_id_L (∅ : gset string) (∪)).
  - destruct (decide (x ∈ T)) as [HT|HT].
    + rewrite IH. do 2 f_equal. apply leibniz_equiv.
      apply set_equiv. intros s.
      rewrite !elem_of_union, elem_of_singleton.
      split; [tauto|]. intros [[->|H]|H]; tauto.
    + simpl. f_equal. rewrite IH. do 2 f_equal. apply leibniz_equiv.
      apply set_equiv. intros s.
      rewrite !elem_of_union, elem_of_singleton. tauto.
Qed.

(** X3.  [_dedupe] keeps first occurrences: the result for [l1 ++ l2] is
    the result for [l1] followed by what the result for [l2] holds that is
    not in [l1]. *)
Theorem dedupe_app (l1 l2 : list string) :
  _dedupe (l1 ++ l2) = _dedupe l1 ++ filter (λ s, s ∉ l1) (_dedupe l2).
Proof.
  unfold _dedupe. rewrite dedupe_from_app. f_equal.
  rewrite dedupe_from_union. apply list_filter_iff.
  intros s. rewrite elem_of_list_to_set. reflexivity.
Qed.

(** X4.  [_dedupe] returns its argument unchanged exactly when the
    argument has no duplicates; in particular it is idempotent. *)
Theorem dedupe_fixed_iff_NoDup (l : list string) :
  (_dedupe l = l ↔ NoDup l) ∧ _dedupe (_dedupe l) = _dedupe l.
Proof.
  assert (Hfix : ∀ k : list string, NoDup k → _dedupe k = k).
  { induction k as [|x k IH]; intros Hk; [reflexivity|].
    apply NoDup_cons in Hk as [Hx Hk].
    rewrite dedupe_cons_fresh by exact Hx. f_equal. apply IH, Hk. }
  split; [split|].
  - intros <-. apply NoDup_dedupe_from.
  - apply Hfix.
  - apply Hfix, NoDup_dedupe_from.
Qed.

(** ** The verdicts of [assess_realtime] and [assess_forecast] *)

Lemma finish_status_of_score policy st :
  band_unsafe_min policy <= 100 →
  ∃ s, v_score (finish policy st) = Some s
       ∧ v_status (finish policy st) = _map_status s false policy.
Proof.
  intros Hband. unfold finish, _map_status. simpl.
  destruct (hard_unsafe st); eexists; (split; [reflexivity|]);
    [|reflexivity].
  destruct (Z.leb_spec (band_unsafe_min policy) 100); [reflexivity | lia].
Qed.

(** X5.  When the Unsafe band starts at 100 or below, the status of every
    scored verdict is the band of the score it reports, hard stop or not:
    status and score never disagree. *)
Theorem status_is_band_of_score policy fog_policy :
  band_unsafe_min policy <= 100 →
  (∀ r v, assess_realtime r policy fog_policy = Some v →
          ∃ s, v_score v = Some s
               ∧ v_status v = _map_status s false policy)
  ∧ (∀ f v, assess_forecast f policy fog_policy = Some v →
            hourly f ≠ [] →
            ∃ s, v_score v = Some s
                 ∧ v_status v = _map_status s false policy).
Proof.
  intros Hband. split.
  - intros r v. unfold assess_realtime.
    destruct (Realtime.rules r policy fog_policy) as [st|]; simpl;
      [|discriminate].
    intros [= <-]. apply finish_status_of_score, Hband.
  - intros f v. unfold assess_forecast.
    destruct (hourly f) as [|h hours]; [congruence|].
    destruct (Forecast.scan _ _ _ init) as [st|]; simpl; [|discriminate].
    intros [= <-] _. apply finish_status_of_score, Hband.
Qed.

Lemma status_is_band_of_score_witness :
  band_unsafe_min default_policy <= 100
  ∧ ∃ v s, assess_realtime storm_reading default_policy FogScore = Some v
           ∧ v_score v = Some s
           ∧ v_status v = _map_status s false default_policy.
Proof.
  assert (Hband : band_unsafe_min default_policy <= 100) by (simpl; lia).
  split; [exact Hband|].
  destruct (status_is_band_of_score default_policy FogScore Hband)
    as [Hrt _].
  destruct (Hrt storm_reading _ storm_reading_verdict) as (s & Hs & Hst).
  eexists. exists s. split; [apply storm_reading_verdict|]. split; assumption.
Defined.

(** Above 100 they do: the hard stop reports 100 with status Unsafe. *)
Example hard_stop_below_unsafe_band :
  _map_status 100 true (with_hard_stop true rebate_policy) = Unsafe
  ∧ _map_status 100 false
      {| thunderstorm_hard_stop := true;
         wind_mod := 20; wind_strong := 30; gust_mod := 35; gust_strong := 45;
         precip_mod := 2; precip_heavy := 5;
         wave_moderate := 1; wave_elevated := 15 # 10; wave_high := 2;
         swell_notable := 15 # 10; swell_large := 2; long_period_s := 10;
         score_fog_realtime := 10; score_fog_forecast := 20;
         score_wind_strong := 40; score_wind_mod := 15;
         score_precip_heavy := 10; score_precip_mod := 5;
         score_wave_high := 50; score_wave_elevated := 20;
         score_wave_moderate := 8;
         score_swell_large := 40; score_swell_notable := 15;
         score_surge_long_period := 10; score_missing_waves := 5;
         band_caution_min := 20; band_unsafe_min := 120 |} = Caution.
Proof. split; reflexivity. Qed.

(** *** An upper bound of the real-time score *)

Ltac bound_step :=
  simpl; try (intros [= <-]; simpl); try discriminate; try lia.

Lemma rt_fog_bound policy fog_policy code st :
  score st = 0 →
  score (Realtime.fog policy fog_policy code st)
  <= Z.max 0 (Z.max (score_fog_realtime policy) (band_caution_min policy)).
Proof. intros H0. unfold Realtime.fog. split_rule; bound_step. Qed.

Lemma rt_wind_bound policy wind gust st st' :
  Realtime.wind_rule policy wind gust st = Some st' →
  score st' <= score st
               + Z.max 0 (Z.max (score_wind_strong policy)
                            (score_wind_mod policy)).
Proof.
  unfold Realtime.wind_rule, or_else, py_ge, py_format_f.
  destruct wind, gust; simpl; split_rule; bound_step.
Qed.

Lemma rt_precip_bound policy precip st st' :
  Realtime.precip_rule policy precip st = Some st' →
  score st' <= score st
               + Z.max 0 (Z.max (score_precip_heavy policy)
                            (score_precip_mod policy)).
Proof.
  unfold Realtime.precip_rule, py_ge, py_format_f.
  destruct precip; simpl; split_rule; bound_step.
Qed.

Lemma rt_waves_bound policy wave_h st :
  score (Realtime.waves policy wave_h st)
  <= score st
     + Z.max 0 (Z.max (score_missing_waves policy)
                  (Z.max (score_wave_high policy)
                     (Z.max (score_wave_elevated policy)
                        (score_wave_moderate policy)))).
Proof. unfold Realtime.waves. split_rule; bound_step. Qed.

Lemma rt_swell_bound policy swell_h swell_p st :
  score (Realtime.swell policy swell_h swell_p st)
  <= score st
     + Z.max 0 (Z.max (score_swell_large policy)
                  (Z.max (score_swell_notable policy)
                     (score_surge_long_period policy))).
Proof. unfold Realtime.swell. split_rule; bound_step. Qed.

Lemma rt_rules_bound r policy fog_policy st :
  Realtime.rules r policy fog_policy = Some st →
  score st <= realtime_score_bound policy.
Proof.
  rewrite rt_rules_sea. cbv zeta.
  destruct (py_add _ _) as [precip|]; simpl; [|discriminate].
  destruct (Realtime.wind_rule policy _ _ _) as [s1|] eqn:H1; simpl;
    [|discriminate].
  destruct (Realtime.precip_rule policy precip s1) as [s2|] eqn:H2; simpl;
    [|discriminate].
  intros [= <-]. rewrite rt_comfort_score.
  pose proof (rt_swell_bound policy
                (dget (default ∅ (marine r)) "swell_wave_height_m")
                (dget (default ∅ (marine r)) "swell_wave_period_s")
                (Realtime.waves policy
                   (dget (default ∅ (marine r)) "wave_height_m") s2)) as B5.
  pose proof (rt_waves_bound policy
                (dget (default ∅ (marine r)) "wave_height_m") s2) as B4.
  pose proof (rt_precip_bound _ _ _ _ H2) as B3.
  pose proof (rt_wind_bound _ _ _ _ _ H1) as B2.
  pose proof (rt_fog_bound policy fog_policy (weather_code r)
                (Realtime.thunderstorm policy (weather_code r) init)) as B1.
  assert (H0 : score (Realtime.thunderstorm policy (weather_code r) init) = 0).
  { unfold Realtime.thunderstorm. destruct (_ && _); reflexivity. }
  specialize (B1 H0). unfold realtime_score_bound. lia.
Qed.

(** X6.  The real-time score is bounded: the running total never exceeds
    the sum, over the five groups of exclusive rules, of the largest weight
    of the group, and the reported score never exceeds the larger of 100
    and that sum (160 under the default policy, which [worst_reading]
    reaches under the fog policy "caution"). *)
Theorem realtime_score_bounded r policy fog_policy v s :
  assess_realtime r policy fog_policy = Some v →
  v_score v = Some s →
  s <= Z.max 100 (realtime_score_bound policy).
Proof.
  unfold assess_realtime.
  destruct (Realtime.rules r policy fog_policy) as [st|] eqn:Hst; simpl;
    [|discriminate].
  intros [= <-]. simpl. intros [= <-].
  pose proof (rt_rules_bound _ _ _ _ Hst).
  destruct (hard_unsafe st); lia.
Qed.

Example default_bound_reached :
  realtime_score_bound default_policy = 160
  ∧ v_score <$> assess_realtime worst_reading default_policy FogCaution
    = Some (Some 160)
  ∧ v_score <$> assess_realtime worst_reading default_policy FogScore
    = Some (Some 150).
Proof. repeat split; vm_compute; reflexivity. Qed.

Lemma realtime_score_bounded_witness :
  ∃ v s, assess_realtime worst_reading default_policy FogCaution = Some v
         ∧ v_score v = Some s ∧ s <= 160.
Proof.
  destruct (assess_realtime worst_reading default_policy FogCaution)
    as [v|] eqn:Hv; [|vm_compute in Hv; discriminate].
  destruct (v_score v) as [s|] eqn:Hs;
    [|vm_compute in Hv; injection Hv as <-; discriminate].
  exists v, s. split; [reflexivity|]. split; [exact Hs|].
  exact (realtime_score_bounded worst_reading default_policy FogCaution v s
           Hv Hs).
Defined.

(** *** What the verdict depends on *)

(** X7.  Two readings in which the engine reads the same get the same
    verdict: nothing but the weather code, the temperature, the wave height,
    the swell height and period, and the wind, gust, precipitation and rain
    entries is read, and for these four a missing entry, [None], 0 and the
    empty string all count as 0. *)
Theorem assess_realtime_reads r r' policy fog_policy :
  same_inputs r r' →
  assess_realtime r policy fog_policy = assess_realtime r' policy fog_policy.
Proof.
  intros (Hc & Hw & Hg & Hp & Hr & Ht & Hwh & Hsh & Hsp).
  unfold assess_realtime, Realtime.rules.
  rewrite Hc, Hw, Hg, Hp, Hr, Ht, Hwh, Hsh, Hsp. reflexivity.
Qed.

Lemma assess_realtime_reads_witness :
  same_inputs empty_reading
    {| weather := Some (<["wind_speed_10m_kmh" := PyNum 0]>
                       (<["rain_mm" := PyStr ""]>
                       (<["cloud_cover_pct" := PyNum 80]> ∅)));
       marine := Some (<["wave_period_s" := PyNum 7]> ∅) |}
  ∧ assess_realtime
      {| weather := Some (<["wind_speed_10m_kmh" := PyNum 0]>
                         (<["rain_mm" := PyStr ""]>
                         (<["cloud_cover_pct" := PyNum 80]> ∅)));
         marine := Some (<["wave_period_s" := PyNum 7]> ∅) |}
      default_policy FogScore
    = assess_realtime empty_reading default_policy FogScore.
Proof.
  assert (H : same_inputs empty_reading
    {| weather := Some (<["wind_speed_10m_kmh" := PyNum 0]>
                       (<["rain_mm" := PyStr ""]>
                       (<["cloud_cover_pct" := PyNum 80]> ∅)));
       marine := Some (<["wave_period_s" := PyNum 7]> ∅) |})
    by (repeat split; vm_compute; reflexivity).
  split; [exact H|]. symmetry.
  exact (assess_realtime_reads _ _ default_policy FogScore H).
Defined.

Lemma with_weather_other (k k' : string) (v : pyval) (r : reading) :
  k ≠ k' →
  dget (default ∅ (weather (with_weather k v r))) k'
  = dget (default ∅ (weather r)) k'.
Proof. intros Hne. simpl. apply dget_insert_ne, Hne. Qed.

Lemma with_weather_same (k : string) (v : pyval) (r : reading) :
  dget (default ∅ (weather (with_weather k v r))) k = v.
Proof. simpl. apply dget_insert_eq. Qed.

Lemma with_weather_marine (k : string) (v : pyval) (r : reading) :
  marine (with_weather k v r) = marine r.
Proof. reflexivity. Qed.

(** X8.  The air temperature only decides the cold-air tip: whatever
    value it is set to, the status, the score and the reasons of the
    verdict are the same, and the call raises on the same readings. *)
Theorem temperature_only_tips r policy fog_policy (t : pyval) :
  match assess_realtime (with_weather "temperature_2m_c" t r)
          policy fog_policy,
        assess_realtime r policy fog_policy with
  | Some a, Some b =>
      v_status a = v_status b ∧ v_score a = v_score b
      ∧ v_reasons a = v_reasons b
  | None, None => True
  | _, _ => False
  end.
Proof.
  unfold assess_realtime. rewrite !rt_rules_sea. cbv zeta.
  unfold weather_code.
  rewrite (with_weather_other _ "precipitation_mm") by discriminate.
  rewrite (with_weather_other _ "rain_mm") by discriminate.
  rewrite (with_weather_other _ "wind_speed_10m_kmh") by discriminate.
  rewrite (with_weather_other _ "wind_gusts_10m_kmh") by discriminate.
  rewrite (with_weather_other _ "weather_code") by discriminate.
  simpl marine.
  destruct (py_add _ _) as [precip|]; simpl; [|exact I].
  destruct (Realtime.wind_rule policy _ _ _) as [s1|]; simpl; [|exact I].
  destruct (Realtime.precip_rule policy precip s1) as [s2|]; simpl;
    [|exact I].
  rewrite !(rt_comfort_frame _ (Realtime.swell _ _ _ _)).
  assert (Hplain : ∀ c, score (Realtime.comfort c init) = 0
                        ∧ hard_unsafe (Realtime.comfort c init) = false
                        ∧ reasons (Realtime.comfort c init) = []).
  { intros c. unfold Realtime.comfort. split_rule; repeat split. }
  destruct (Hplain (dget (<["temperature_2m_c":=t]> (default ∅ (weather r)))
                      "temperature_2m_c")) as (Ha1 & Ha2 & Ha3).
  destruct (Hplain (dget (default ∅ (weather r)) "temperature_2m_c"))
    as (Hb1 & Hb2 & Hb3).
  simpl. rewrite Ha1, Ha2, Ha3, Hb1, Hb2, Hb3. repeat split.
Qed.

(** *** Every point of the score has a reason *)

Ltac explained_step :=
  unfold explained; simpl; intros Hexp Hr;
  first [ exact (Hexp Hr)
        | apply app_eq_nil in Hr; destruct Hr; discriminate ].

Lemma rt_thunderstorm_explained policy code st :
  explained st → explained (Realtime.thunderstorm policy code st).
Proof. unfold Realtime.thunderstorm. split_rule; explained_step. Qed.

Lemma rt_fog_explained policy fog_policy code st :
  explained st → explained (Realtime.fog policy fog_policy code st).
Proof. unfold Realtime.fog. split_rule; explained_step. Qed.

Lemma fc_fog_explained policy fog_policy code st :
  explained st → explained (Forecast.fog policy fog_policy code st).
Proof. unfold Forecast.fog. split_rule; explained_step. Qed.

Lemma rt_wind_explained policy wind gust st st' :
  Realtime.wind_rule policy wind gust st = Some st' →
  explained st → explained st'.
Proof.
  unfold Realtime.wind_rule, or_else, py_ge, py_format_f.
  destruct wind, gust; simpl; split_rule; intros [= <-]; explained_step.
Qed.

Lemma rt_precip_explained policy precip st st' :
  Realtime.precip_rule policy precip st = Some st' →
  explained st → explained st'.
Proof.
  unfold Realtime.precip_rule, py_ge, py_format_f.
  destruct precip; simpl; split_rule; intros [= <-]; explained_step.
Qed.

Lemma fc_wind_explained policy wind gust st st' :
  Forecast.wind_rule policy wind gust st = Some st' →
  explained st → explained st'.
Proof.
  unfold Forecast.wind_rule, or_else, py_ge, py_format_f.
  destruct wind, gust; simpl; split_rule; intros [= <-]; explained_step.
Qed.

Lemma fc_precip_explained policy precip st st' :
  Forecast.precip_rule policy precip st = Some st' →
  explained st → explained st'.
Proof.
  unfold Forecast.precip_rule, py_ge, py_format_f.
  destruct precip; simpl; split_rule; intros [= <-]; explained_step.
Qed.

Lemma rt_sea_explained policy air_c wave_h swell_h swell_p st :
  explained st →
  explained (Realtime.comfort air_c
               (Realtime.swell policy swell_h swell_p
                  (Realtime.waves policy wave_h st))).
Proof.
  intros H.
  assert (H1 : explained (Realtime.waves policy wave_h st)).
  { revert H. unfold Realtime.waves. split_rule; explained_step. }
  assert (H2 : explained (Realtime.swell policy swell_h swell_p
                            (Realtime.waves policy wave_h st))).
  { revert H1. generalize (Realtime.waves policy wave_h st). intros s.
    unfold Realtime.swell. split_rule; explained_step. }
  revert H2. generalize (Realtime.swell policy swell_h swell_p
                           (Realtime.waves policy wave_h st)). intros s.
  unfold Realtime.comfort. split_rule; explained_step.
Qed.

Lemma fc_marine_explained policy marine st :
  explained st → explained (Forecast.marine_rules policy marine st).
Proof.
  intros H. unfold Forecast.marine_rules.
  assert (H1 : explained (Forecast.waves policy
                            (dget marine "wave_height_max_m") st)).
  { revert H. unfold Forecast.waves. split_rule; explained_step. }
  revert H1. generalize (Forecast.waves policy
                           (dget marine "wave_height_max_m") st). intros s.
  unfold Forecast.swell. split_rule; explained_step.
Qed.

Lemma init_explained : explained init.
Proof. intros _. split; reflexivity. Qed.

Lemma rt_rules_explained r policy fog_policy st :
  Realtime.rules r policy fog_policy = Some st → explained st.
Proof.
  rewrite rt_rules_sea. cbv zeta.
  destruct (py_add _ _) as [precip|]; simpl; [|discriminate].
  destruct (Realtime.wind_rule policy _ _ _) as [s1|] eqn:H1; simpl;
    [|discriminate].
  destruct (Realtime.precip_rule policy precip s1) as [s2|] eqn:H2; simpl;
    [|discriminate].
  intros [= <-]. apply rt_sea_explained.
  apply (rt_precip_explained _ _ _ _ H2), (rt_wind_explained _ _ _ _ _ H1).
  apply rt_fog_explained, rt_thunderstorm_explained, init_explained.
Qed.

Lemma fc_hour_explained policy fog_policy h st fl :
  Forecast.hour policy fog_policy h st = Some fl →
  explained st → explained (after_hour fl).
Proof.
  unfold Forecast.hour.
  destruct (py_add _ _) as [precip|]; simpl; [|discriminate].
  destruct (_ && _); [intros [= <-]; explained_step|].
  destruct (Forecast.wind_rule policy _ _ _) as [s1|] eqn:H1; simpl;
    [|discriminate].
  destruct (Forecast.precip_rule policy _ _) as [s2|] eqn:H2; simpl;
    [|discriminate].
  intros [= <-] H0. simpl.
  apply (fc_precip_explained _ _ _ _ H2), (fc_wind_explained _ _ _ _ _ H1).
  apply fc_fog_explained, H0.
Qed.

Lemma fc_scan_explained policy fog_policy hours st st' :
  Forecast.scan policy fog_policy hours st = Some st' →
  explained st → explained st'.
Proof.
  revert st. induction hours as [|h hours IH]; intros st; simpl.
  - intros [= <-]. exact id.
  - destruct (Forecast.hour policy fog_policy h st) as [fl|] eqn:Hh;
      [|discriminate].
    pose proof (fc_hour_explained _ _ _ _ _ Hh) as Hfl.
    destruct fl as [s1|s1]; [|intros [= <-]; exact Hfl].
    intros Hs H0. apply (IH _ Hs), Hfl, H0.
Qed.

Lemma dedupe_nil (l : list string) : _dedupe l = [] → l = [].
Proof.
  destruct l as [|x l]; [reflexivity|]. intros H.
  assert (Hx : x ∈ _dedupe (x :: l)) by (apply elem_of_dedupe; left).
  rewrite H in Hx. inversion Hx.
Qed.

Lemma finish_explained policy st :
  explained st → v_reasons (finish policy st) = [] →
  v_score (finish policy st) = Some 0
  ∧ v_status (finish policy st) = _map_status 0 false policy.
Proof.
  intros Hexp Hr. simpl in Hr. apply dedupe_nil in Hr.
  destruct (Hexp Hr) as [Hs Hh]. unfold finish. simpl.
  rewrite Hs, Hh. split; reflexivity.
Qed.

(** X9.  Every point of a score comes with a reason: a verdict of
    [assess_realtime] or [assess_forecast] that gives no reason has score 0,
    and its status is the band of 0 (no hard stop was taken). *)
Theorem no_reason_no_score policy fog_policy :
  (∀ r v, assess_realtime r policy fog_policy = Some v →
          v_reasons v = [] →
          v_score v = Some 0 ∧ v_status v = _map_status 0 false policy)
  ∧ (∀ f v, assess_forecast f policy fog_policy = Some v →
            v_reasons v = [] →
            v_score v = Some 0 ∧ v_status v = _map_status 0 false policy).
Proof.
  split.
  - intros r v. unfold assess_realtime.
    destruct (Realtime.rules r policy fog_policy) as [st|] eqn:Hst; simpl;
      [|discriminate].
    intros [= <-]. apply finish_explained, (rt_rules_explained _ _ _ _ Hst).
  - intros f v. unfold assess_forecast.
    destruct (hourly f) as [|h hours]; [intros [= <-]; discriminate|].
    destruct (Forecast.scan _ _ _ init) as [st|] eqn:Hst; simpl;
      [|discriminate].
    intros [= <-]. apply finish_explained, fc_marine_explained.
    apply (fc_scan_explained _ _ _ _ _ Hst), init_explained.
Qed.

Lemma no_reason_no_score_witness :
  ∃ v, assess_realtime calm_reading default_policy FogScore = Some v
       ∧ v_reasons v = []
       ∧ v_score v = Some 0 ∧ v_status v = Safe.
Proof.
  destruct (no_reason_no_score default_policy FogScore) as [Hrt _].
  eexists. split; [vm_compute; reflexivity|]. split; [reflexivity|].
  apply (Hrt calm_reading); vm_compute; reflexivity.
Defined.

(** *** More wind is never milder *)

Ltac Qtests :=
  repeat match goal with
    | H : Qle_bool _ _ = true |- _ => apply Qle_bool_iff in H
    | H : Qle_bool _ _ = false |- _ =>
        apply not_true_iff_false in H; rewrite Qle_bool_iff in H
    end.

Lemma rt_wind_monotone policy (x y : Q) gust st :
  (x <= y)%Q →
  0 <= score_wind_mod policy <= score_wind_strong policy →
  match Realtime.wind_rule policy (PyNum x) gust st,
        Realtime.wind_rule policy (PyNum y) gust st with
  | Some a, Some b =>
      score a <= score b ∧ hard_unsafe a = hard_unsafe b
  | None, None => True
  | _, _ => False
  end.
Proof.
  intros Hxy Hw.
  unfold Realtime.wind_rule, or_else, py_ge, py_format_f.
  destruct gust as [|g|]; simpl;
    destruct (Qle_bool (wind_strong policy) x) eqn:E1;
    destruct (Qle_bool (wind_strong policy) y) eqn:E2; simpl;
    try exact I;
    try (destruct (Qle_bool (gust_strong policy) g) eqn:E3; simpl);
    try (destruct (Qle_bool (wind_mod policy) x) eqn:E4; simpl);
    try (destruct (Qle_bool (wind_mod policy) y) eqn:E5; simpl);
    try (destruct (Qle_bool (gust_mod policy) g) eqn:E6; simpl);
    try exact I; try (split; [lia | reflexivity]);
    exfalso; Qtests; lra.
Qed.

Lemma or_zero_num (x : Q) : ∃ x0, or_zero (PyNum x) = PyNum x0 ∧ (x0 == x)%Q.
Proof.
  unfold or_zero. simpl. destruct (Qeq_bool x 0) eqn:E; simpl.
  - exists 0%Q. split; [reflexivity|]. apply Qeq_bool_iff in E.
    symmetry. exact E.
  - exists x. split; reflexivity.
Qed.



(** ** The hourly scan *)

Lemma fc_fog_hard policy fog_policy code st :
  hard_unsafe (Forecast.fog policy fog_policy code st) = hard_unsafe st.
Proof. unfold Forecast.fog. split_rule; reflexivity. Qed.

Lemma fc_wind_hard policy wind gust st st' :
  Forecast.wind_rule policy wind gust st = Some st' →
  hard_unsafe st' = hard_unsafe st.
Proof.
  unfold Forecast.wind_rule, or_else, py_ge, py_format_f.
  destruct wind, gust; simpl; split_rule; intros [= <-]; reflexivity.
Qed.

Lemma fc_precip_hard policy precip st st' :
  Forecast.precip_rule policy precip st = Some st' →
  hard_unsafe st' = hard_unsafe st.
Proof.
  unfold Forecast.precip_rule, py_ge, py_format_f.
  destruct precip; simpl; split_rule; intros [= <-]; reflexivity.
Qed.

Lemma fc_hour_continue_hard policy fog_policy h st st' :
  Forecast.hour policy fog_policy h st = Some (Continue st') →
  hard_unsafe st' = hard_unsafe st.
Proof.
  unfold Forecast.hour.
  destruct (py_add _ _) as [precip|]; simpl; [|discriminate].
  destruct (_ && _); [discriminate|].
  destruct (Forecast.wind_rule policy _ _ _) as [s1|] eqn:H1; simpl;
    [|discriminate].
  destruct (Forecast.precip_rule policy _ _) as [s2|] eqn:H2; simpl;
    [|discriminate].
  intros [= <-].
  rewrite (fc_precip_hard _ _ _ _ H2), (fc_wind_hard _ _ _ _ _ H1).
  apply fc_fog_hard.
Qed.

(** X11.  Scanning a sequence of hours in two parts: from totals without a
    hard stop, the scan of [hs1 ++ hs2] is the scan of [hs1], followed by
    the scan of [hs2] unless the first scan ended on a hard stop, in which
    case [hs2] is not read. *)
Theorem fc_scan_app policy fog_policy hs1 hs2 st :
  hard_unsafe st = false →
  Forecast.scan policy fog_policy (hs1 ++ hs2) st
  = (st1 ← Forecast.scan policy fog_policy hs1 st;
     if hard_unsafe st1 then Some st1
     else Forecast.scan policy fog_policy hs2 st1).
Proof.
  revert st. induction hs1 as [|h hs1 IH]; intros st Hst; simpl.
  - rewrite Hst. reflexivity.
  - destruct (Forecast.hour policy fog_policy h st) as [[s1|s1]|] eqn:Hh;
      simpl; [| |reflexivity].
    + apply IH. rewrite (fc_hour_continue_hard _ _ _ _ _ Hh). exact Hst.
    + rewrite (fc_hour_break_hard _ _ _ _ _ Hh). reflexivity.
Qed.

Lemma fc_scan_app_witness :
  hard_unsafe init = false
  ∧ Forecast.scan default_policy FogScore
      ([breezy_hour; stormy_hour] ++ [foggy_hour]) init
    = Forecast.scan default_policy FogScore [breezy_hour; stormy_hour] init.
Proof.
  split; [reflexivity|].
  rewrite (fc_scan_app default_policy FogScore _ _ init eq_refl).
  vm_compute. reflexivity.
Defined.

(** *** The order of the hours *)

Lemma fc_hour_no_stop policy fog_policy h st :
  no_stop policy h = true →
  ∀ st', Forecast.hour policy fog_policy h st ≠ Some (Break st').
Proof.
  unfold no_stop, Forecast.hour, is_thunderstorm.
  rewrite negb_true_iff. intros -> st'.
  destruct (py_add _ _) as [precip|]; simpl; [|discriminate].
  destruct (Forecast.wind_rule policy _ _ _) as [s1|]; simpl; [|discriminate].
  destruct (Forecast.precip_rule policy _ _) as [s2|]; simpl; discriminate.
Qed.

Lemma same_totals_refl o : same_totals o o.
Proof. destruct o; simpl; [split; [|split]; reflexivity | exact I]. Qed.

Lemma same_totals_trans o1 o2 o3 :
  same_totals o1 o2 → same_totals o2 o3 → same_totals o1 o3.
Proof.
  destruct o1, o2, o3; simpl; try tauto.
  intros (Hs & Hh & Hr) (Hs' & Hh' & Hr').
  split; [congruence|]. split; [congruence|]. rewrite Hr. exact Hr'.
Qed.

Lemma same_totals_combine d o o' :
  same_totals o o' → same_totals (combine d <$> o) (combine d <$> o').
Proof.
  destruct o, o'; simpl; try tauto.
  intros (Hs & Hh & Hr).
  split; [congruence|]. split; [congruence|]. rewrite Hr. reflexivity.
Qed.

Lemma fc_scan_permutation policy fog_policy hs hs' :
  fog_policy ≠ FogCaution →
  hs ≡ₚ hs' →
  Forall (λ h, no_stop policy h = true) hs →
  same_totals (Forecast.scan policy fog_policy hs init)
    (Forecast.scan policy fog_policy hs' init).
Proof.
  intros Hfp Hperm. induction Hperm as [|x l l' Hp IH|x y l|l l' l'' H1 IH1 H2 IH2];
    intros Hall.
  - apply same_totals_refl.
  - apply Forall_cons in Hall as [Hx Hall]. simpl.
    destruct (Forecast.hour policy fog_policy x init) as [[d|d]|] eqn:Hh;
      [|exfalso; exact (fc_hour_no_stop _ _ _ _ Hx _ Hh)|exact I].
    rewrite (fc_scan_frame _ _ l d), (fc_scan_frame _ _ l' d) by exact Hfp.
    apply same_totals_combine, IH, Hall.
  - apply Forall_cons in Hall as [Hx Hall].
    apply Forall_cons in Hall as [Hy Hall]. simpl.
    destruct (Forecast.hour policy fog_policy x init) as [[dx|dx]|] eqn:Hx';
      [|exfalso; exact (fc_hour_no_stop _ _ _ _ Hy _ Hx')|].
    + destruct (Forecast.hour policy fog_policy y init) as [[dy|dy]|] eqn:Hy';
        [|exfalso; exact (fc_hour_no_stop _ _ _ _ Hx _ Hy')|].
      * rewrite (fc_hour_frame _ _ y dx), (fc_hour_frame _ _ x dy) by exact Hfp.
        rewrite Hx', Hy'. simpl.
        rewrite (fc_scan_frame _ _ l (combine dx dy)) by exact Hfp.
        rewrite (fc_scan_frame _ _ l (combine dy dx)) by exact Hfp.
        destruct (Forecast.scan policy fog_policy l init) as [d|]; simpl;
          [|exact I].
        split; [lia|]. split.
        -- rewrite (orb_comm (hard_unsafe dx)). reflexivity.
        -- rewrite (Permutation_app_comm (reasons dx)). reflexivity.
      * rewrite (fc_hour_frame _ _ y dx) by exact Hfp. rewrite Hy'. exact I.
    + destruct (Forecast.hour policy fog_policy y init) as [[dy|dy]|] eqn:Hy';
        [|exfalso; exact (fc_hour_no_stop _ _ _ _ Hx _ Hy')|exact I].
      rewrite (fc_hour_frame _ _ x dy) by exact Hfp. rewrite Hx'. exact I.
  - eapply same_totals_trans; [apply IH1, Hall|].
    apply IH2. rewrite <- H1. exact Hall.
Qed.

(** X12.  Under the fog policies "score" and "warn", and without an hour
    that triggers the hard stop, the order of the hours does not matter:
    any rearrangement of the hourly sequence gives the same status, the same
    score and the same set of reasons, and raises on the same forecasts. *)
Theorem hour_order_irrelevant policy fog_policy hs hs' marine :
  fog_policy ≠ FogCaution →
  hs ≡ₚ hs' →
  Forall (λ h, no_stop policy h = true) hs →
  match assess_forecast {| hourly := hs; marine_daily := marine |}
          policy fog_policy,
        assess_forecast {| hourly := hs'; marine_daily := marine |}
          policy fog_policy with
  | Some a, Some b =>
      v_status a = v_status b ∧ v_score a = v_score b
      ∧ ∀ s, s ∈ v_reasons a ↔ s ∈ v_reasons b
  | None, None => True
  | _, _ => False
  end.
Proof.
  intros Hfp Hperm Hall.
  destruct hs as [|h hs].
  { apply Permutation_nil_l in Hperm. subst hs'. simpl. repeat split; tauto. }
  destruct hs' as [|h' hs'].
  { apply Permutation_nil_r in Hperm. discriminate. }
  rewrite !assess_forecast_scan by discriminate.
  pose proof (fc_scan_permutation policy fog_policy _ _ Hfp Hperm Hall) as Hsame.
  destruct (Forecast.scan policy fog_policy (h :: hs) init) as [a|];
    destruct (Forecast.scan policy fog_policy (h' :: hs') init) as [b|];
    simpl in *; try contradiction; [|exact I].
  destruct Hsame as (Hs & Hh & Hr).
  rewrite (fc_marine_frame _ _ a), (fc_marine_frame _ _ b). simpl.
  rewrite Hs, Hh. split; [reflexivity|]. split; [reflexivity|].
  intros s. rewrite !elem_of_dedupe, !elem_of_app, Hr. reflexivity.
Qed.

Lemma hour_order_irrelevant_witness :
  FogScore ≠ FogCaution
  ∧ [breezy_hour; foggy_hour] ≡ₚ [foggy_hour; breezy_hour]
  ∧ Forall (λ h, no_stop default_policy h = true) [breezy_hour; foggy_hour]
  ∧ ∃ a b,
      assess_forecast {| hourly := [breezy_hour; foggy_hour];
                         marine_daily := None |} default_policy FogScore
      = Some a
      ∧ assess_forecast {| hourly := [foggy_hour; breezy_hour];
                           marine_daily := None |} default_policy FogScore
        = Some b
      ∧ v_score a = v_score b.
Proof.
  assert (Hfp : FogScore ≠ FogCaution) by discriminate.
  assert (Hperm : [breezy_hour; foggy_hour] ≡ₚ [foggy_hour; breezy_hour])
    by apply perm_swap.
  assert (Hall : Forall (λ h, no_stop default_policy h = true)
                   [breezy_hour; foggy_hour])
    by (repeat constructor; vm_compute; reflexivity).
  pose proof (hour_order_irrelevant default_policy FogScore _ _ None
                Hfp Hperm Hall) as H.
  split; [exact Hfp|]. split; [exact Hperm|]. split; [exact Hall|].
  destruct (assess_forecast {| hourly := [breezy_hour; foggy_hour];
                               marine_daily := None |}
              default_policy FogScore) as [a|] eqn:Ha;
    [|vm_compute in Ha; discriminate].
  destruct (assess_forecast {| hourly := [foggy_hour; breezy_hour];
                               marine_daily := None |}
              default_policy FogScore) as [b|] eqn:Hb;
    [|vm_compute in Hb; discriminate].
  exists a, b. repeat split. apply H.
Defined.

(** Under "caution" the order matters: fog after wind floors 15 to 20, fog
    before wind gives 20 + 15. *)
Example caution_order_matters :
  score <$> Forecast.scan default_policy FogCaution
              [breezy_hour; foggy_hour] init = Some 20
  ∧ score <$> Forecast.scan default_policy FogCaution
                [foggy_hour; breezy_hour] init = Some 35.
Proof. split; vm_compute; reflexivity. Qed.

(** * Properties of the provider client *)

(** ** [safe_max] and [safe_min] *)

Lemma elem_of_numbers (a : list pyval) (x : Q) : x ∈ numbers a ↔ PyNum x ∈ a.
Proof.
  unfold numbers. rewrite list_elem_of_omap. split.
  - intros (v & Hv & Hx). destruct v; try discriminate.
    injection Hx as ->. exact Hv.
  - intros H. exists (PyNum x). split; [exact H | reflexivity].
Qed.

Lemma py_max_spec (x : Q) (xs : list Q) :
  py_max x xs ∈ x :: xs ∧ ∀ y, y ∈ x :: xs → (y <= py_max x xs)%Q.
Proof.
  unfold py_max. revert x. induction xs as [|z xs IH]; intros x; simpl.
  - split; [left|]. intros y Hy. apply list_elem_of_singleton in Hy as ->.
    apply Qle_refl.
  - destruct (IH (if num_gt z x then z else x)) as [Hin Hle]. split.
    + apply elem_of_cons in Hin as [->|Hin].
      * destruct (num_gt z x); [right; left | left].
      * right. right. exact Hin.
    + intros y Hy.
      assert (Hstep : (x <= (if num_gt z x then z else x))%Q
                      ∧ (z <= (if num_gt z x then z else x))%Q).
      { unfold num_gt. destruct (Qle_bool z x) eqn:E; simpl.
        - apply Qle_bool_iff in E. split; [apply Qle_refl | exact E].
        - apply not_true_iff_false in E. rewrite Qle_bool_iff in E.
          split; [lra | apply Qle_refl]. }
      destruct Hstep as [Hx Hz].
      apply elem_of_cons in Hy as [->|Hy].
      * eapply Qle_trans; [exact Hx|]. apply Hle. left.
      * apply elem_of_cons in Hy as [->|Hy].
        -- eapply Qle_trans; [exact Hz|]. apply Hle. left.
        -- apply Hle. right. exact Hy.
Qed.

Lemma py_min_spec (x : Q) (xs : list Q) :
  py_min x xs ∈ x :: xs ∧ ∀ y, y ∈ x :: xs → (py_min x xs <= y)%Q.
Proof.
  unfold py_min. revert x. induction xs as [|z xs IH]; intros x; simpl.
  - split; [left|]. intros y Hy. apply list_elem_of_singleton in Hy as ->.
    apply Qle_refl.
  - destruct (IH (if num_lt z x then z else x)) as [Hin Hle]. split.
    + apply elem_of_cons in Hin as [->|Hin].
      * destruct (num_lt z x); [right; left | left].
      * right. right. exact Hin.
    + intros y Hy.
      assert (Hstep : ((if num_lt z x then z else x) <= x)%Q
                      ∧ ((if num_lt z x then z else x) <= z)%Q).
      { unfold num_lt. destruct (Qle_bool x z) eqn:E; simpl.
        - apply Qle_bool_iff in E. split; [apply Qle_refl | exact E].
        - apply not_true_iff_false in E. rewrite Qle_bool_iff in E.
          split; [lra | apply Qle_refl]. }
      destruct Hstep as [Hx Hz].
      apply elem_of_cons in Hy as [->|Hy].
      * eapply Qle_trans; [|exact Hx]. apply Hle. left.
      * apply elem_of_cons in Hy as [->|Hy].
        -- eapply Qle_trans; [|exact Hz]. apply Hle. left.
        -- apply Hle. right. exact Hy.
Qed.

Lemma numbers_nil (a : list pyval) :
  numbers a = [] ↔ ∀ x, PyNum x ∉ a.
Proof.
  split.
  - intros H x Hx. apply elem_of_numbers in Hx. rewrite H in Hx.
    inversion Hx.
  - intros H. destruct (numbers a) as [|x xs] eqn:E; [reflexivity|].
    exfalso. apply (H x), elem_of_numbers. rewrite E. left.
Qed.

(** X13.  [safe_max] and [safe_min] return [None] exactly when the array
    holds no number (an empty or missing array, or only nulls); otherwise
    they return a number of the array that no number of the array exceeds,
    respectively falls below. *)
Theorem safe_max_min_spec (a : list pyval) :
  (safe_max a = PyNone ↔ ∀ x, PyNum x ∉ a)
  ∧ (safe_min a = PyNone ↔ ∀ x, PyNum x ∉ a)
  ∧ (∀ m, safe_max a = PyNum m →
          PyNum m ∈ a ∧ ∀ x, PyNum x ∈ a → (x <= m)%Q)
  ∧ (∀ m, safe_min a = PyNum m →
          PyNum m ∈ a ∧ ∀ x, PyNum x ∈ a → (m <= x)%Q).
Proof.
  unfold safe_max, safe_min. rewrite <- numbers_nil.
  destruct (numbers a) as [|x xs] eqn:E.
  - repeat split; try discriminate; reflexivity.
  - split; [split; discriminate|]. split; [split; discriminate|].
    destruct (py_max_spec x xs) as [Hin Hle].
    destruct (py_min_spec x xs) as [Hin' Hle'].
    rewrite <- E in Hin, Hle, Hin', Hle'.
    split; intros m [= <-]; (split; [apply elem_of_numbers; assumption|]);
      intros y Hy; apply elem_of_numbers in Hy; auto.
Qed.

(** ** [_aggregate_marine_day] *)

Lemma aggregate_entries (m : payload) :
  let hourly := default ∅ (p_hourly m) in
  dget (_aggregate_marine_day m) "wave_height_max_m"
  = safe_max (arr hourly "wave_height")
  ∧ dget (_aggregate_marine_day m) "wave_height_min_m"
    = safe_min (arr hourly "wave_height")
  ∧ dget (_aggregate_marine_day m) "swell_wave_height_max_m"
    = safe_max (arr hourly "swell_wave_height").
Proof. repeat split. Qed.

(** X14.  In the daily marine summary the minimum wave height never
    exceeds the maximum, and the two are missing together: exactly when the
    hourly wave heights hold no number. *)
Theorem aggregate_min_le_max (m : payload) :
  let day := _aggregate_marine_day m in
  (dget day "wave_height_min_m" = PyNone
   ↔ dget day "wave_height_max_m" = PyNone)
  ∧ (dget day "wave_height_max_m" = PyNone
     ↔ ∀ x, PyNum x ∉ arr (default ∅ (p_hourly m)) "wave_height")
  ∧ ∀ lo hi, dget day "wave_height_min_m" = PyNum lo →
             dget day "wave_height_max_m" = PyNum hi → (lo <= hi)%Q.
Proof.
  intros day. destruct (aggregate_entries m) as (Hmax & Hmin & _).
  unfold day. rewrite Hmax, Hmin.
  destruct (safe_max_min_spec (arr (default ∅ (p_hourly m)) "wave_height"))
    as (Hnone & Hnone' & Hhi & Hlo).
  split; [rewrite Hnone, Hnone'; reflexivity|].
  split; [exact Hnone|].
  intros lo hi Hl Hh.
  destruct (Hhi hi Hh) as [_ Hle]. destruct (Hlo lo Hl) as [Hin _].
  apply Hle, Hin.
Qed.

Lemma add_reason_inj w w' r r' st :
  add_score w (add_reason r st) = add_score w' (add_reason r' st) → r = r'.
Proof.
  intros H. apply (f_equal reasons) in H. simpl in H.
  apply app_inv_head in H. congruence.
Qed.

Lemma add_reason_neq w r st : st ≠ add_score w (add_reason r st).
Proof.
  intros H. apply (f_equal (λ s, length (reasons s))) in H. simpl in H.
  rewrite length_app in H. simpl in H. lia.
Qed.


(** ** [_get_json] *)

Lemma get_json_cases (r : http) :
  (∃ data, r = Response 200 (Some data)
           ∧ truthy (dget (p_top data) "reason") = false
           ∧ ∀ allow_fail, _get_json r allow_fail = Ok (Some data))
  ∨ ((∀ data, r = Response 200 (Some data) →
              truthy (dget (p_top data) "reason") = true)
     ∧ _get_json r true = Ok None
     ∧ _get_json r false = Raise OpenMeteoError).
Proof.
  destruct r as [|status [data|]]; simpl.
  - right. split; [discriminate|]. split; reflexivity.
  - destruct (Z.eqb_spec status 200) as [->|Hne]; simpl.
    + destruct (truthy (dget (p_top data) "reason")) eqn:Ht.
      * right. split; [intros d [= <-]; exact Ht|]. split; reflexivity.
      * left. exists data. repeat split. exact Ht.
    + right. split; [intros d [= Hs _]; congruence|]. split; reflexivity.
  - right. split; [discriminate|].
    destruct (status =? 200); split; reflexivity.
Qed.


(** ** [_parse_current_weather] and [_parse_current_marine] *)

Lemma parse_weather_entries (data : payload) :
  let current := default ∅ (p_current data) in
  let wx := _parse_current_weather data in
  dget wx "weather_code" = dget current "weather_code"
  ∧ dget wx "wind_speed_10m_kmh" = dget current "wind_speed_10m"
  ∧ dget wx "wind_gusts_10m_kmh" = dget current "wind_gusts_10m"
  ∧ dget wx "precipitation_mm" = dget current "precipitation"
  ∧ dget wx "rain_mm" = dget current "rain"
  ∧ dget wx "temperature_2m_c" = dget current "temperature_2m".
Proof. repeat split. Qed.

Lemma parse_marine_entries (data : payload) :
  let current := default ∅ (p_current data) in
  let sea := _parse_current_marine data in
  dget sea "wave_height_m" = dget current "wave_height"
  ∧ dget sea "swell_wave_height_m" = dget current "swell_wave_height"
  ∧ dget sea "swell_wave_period_s" = dget current "swell_wave_period".
Proof. repeat split. Qed.


(** ** The route [/realtime] *)

Lemma get_json_answered (r : http) :
  (∃ data, answered r data
           ∧ ∀ allow_fail, _get_json r allow_fail = Ok (Some data))
  ∨ ((∀ data, ¬ answered r data)
     ∧ _get_json r true = Ok None
     ∧ _get_json r false = Raise OpenMeteoError).
Proof.
  destruct (get_json_cases r) as [(d & Hr & Ht & Hok)|(Hbad & Htrue & Hfalse)].
  - left. exists d. split; [split; assumption | exact Hok].
  - right. split; [|split; assumption].
    intros data [Hr Ht]. rewrite (Hbad data Hr) in Ht. discriminate.
Qed.

(** The reading of [get_realtime] once the weather request is answered. *)
Lemma get_realtime_answered include_marine weather_http marine_http data :
  answered weather_http data →
  ∃ sea, get_realtime include_marine weather_http marine_http
         = Ok {| weather := Some (_parse_current_weather data);
                 marine := sea |}.
Proof.
  intros Hans. unfold get_realtime.
  destruct (get_json_answered weather_http)
    as [(d & [Hr Ht] & Hok)|(Hbad & _ & _)];
    [|exfalso; exact (Hbad data Hans)].
  destruct Hans as [Hr' _]. rewrite Hr in Hr'. injection Hr' as ->.
  rewrite Hok. destruct include_marine; [|eexists; reflexivity].
  destruct (get_json_answered marine_http)
    as [(m & _ & Hm)|(_ & Hm & _)]; rewrite Hm; eexists; reflexivity.
Qed.

Lemma get_realtime_failed include_marine weather_http marine_http :
  (∀ data, ¬ answered weather_http data) →
  get_realtime include_marine weather_http marine_http = Raise OpenMeteoError.
Proof.
  intros Hbad. unfold get_realtime.
  destruct (get_json_answered weather_http)
    as [(d & Hans & _)|(_ & _ & ->)]; [|reflexivity].
  exfalso. exact (Hbad d Hans).
Qed.

(** Whether the real-time rules raise is decided by the weather entries. *)
Lemma rt_rules_raise_weather wx sea sea' policy fog_policy :
  is_Some (Realtime.rules {| weather := wx; marine := sea |} policy fog_policy)
  → is_Some (Realtime.rules {| weather := wx; marine := sea' |}
               policy fog_policy).
Proof.
  rewrite !rt_rules_sea. cbv zeta. unfold weather_code. simpl.
  destruct (py_add _ _) as [precip|]; simpl; [|intros [? [=]]].
  destruct (Realtime.wind_rule policy _ _ _) as [s1|]; simpl;
    [|intros [? [=]]].
  destruct (Realtime.precip_rule policy precip s1) as [s2|]; simpl;
    [|intros [? [=]]].
  intros _. eexists; reflexivity.
Qed.

Lemma realtime_of_reading include_marine fog_policy weather_http marine_http
  data sea :
  get_realtime include_marine weather_http marine_http
  = Ok {| weather := Some (_parse_current_weather data); marine := sea |} →
  realtime include_marine fog_policy weather_http marine_http
  = match assess_realtime
            {| weather := Some (_parse_current_weather data); marine := sea |}
            REALTIME_POLICY fog_policy with
    | Some safety =>
        Http200 ({| weather := Some (_parse_current_weather data);
                    marine := sea |}, safety)
    | None => HttpError 500
    end.
Proof. unfold realtime. intros ->. reflexivity. Qed.


Lemma numeric_current_weather (data : payload) :
  numeric_current data = true →
  numeric_weather (_parse_current_weather data) = true.
Proof.
  unfold numeric_current, numeric_weather.
  destruct (parse_weather_entries data) as (_ & -> & -> & -> & -> & _).
  exact id.
Qed.

Lemma missing_waves_in_verdict r policy fog_policy v :
  is_number (dget (default ∅ (marine r)) "wave_height_m") = false →
  assess_realtime r policy fog_policy = Some v →
  Realtime.missing_waves_reason ∈ v_reasons v.
Proof.
  intros Hwave. unfold assess_realtime. rewrite rt_rules_sea. cbv zeta.
  destruct (py_add _ _) as [precip|]; simpl; [|discriminate].
  destruct (Realtime.wind_rule policy _ _ _) as [s1|]; simpl; [|discriminate].
  destruct (Realtime.precip_rule policy precip s1) as [s2|]; simpl;
    [|discriminate].
  intros [= <-]. simpl. rewrite elem_of_dedupe.
  rewrite rt_waves_missing by exact Hwave.
  rewrite rt_comfort_frame, rt_swell_frame. simpl.
  rewrite !elem_of_app, list_elem_of_singleton. tauto.
Qed.

Lemma get_realtime_marine include_marine weather_http marine_http data :
  answered weather_http data →
  ∃ sea,
    get_realtime include_marine weather_http marine_http
    = Ok {| weather := Some (_parse_current_weather data); marine := sea |}
    ∧ (sea = None
       ↔ include_marine = false
         ∨ ∀ m, answered marine_http m → payload_truthy m = false)
    ∧ ∀ m, include_marine = true → answered marine_http m →
           payload_truthy m = true → sea = Some (_parse_current_marine m).
Proof.
  intros Hans. unfold get_realtime.
  destruct (get_json_answered weather_http)
    as [(d & [Hr Ht] & Hok)|(Hbad & _ & _)];
    [|exfalso; exact (Hbad data Hans)].
  destruct Hans as [Hr' _]. rewrite Hr in Hr'. injection Hr' as ->.
  rewrite Hok. destruct include_marine.
  - destruct (get_json_answered marine_http)
      as [(m & Hm & Hmok)|(Hmbad & Hmnone & _)].
    + rewrite Hmok. eexists. split; [reflexivity|]. split.
      * destruct (payload_truthy m) eqn:Htr.
        -- split; [discriminate|]. intros [H|H]; [discriminate|].
           rewrite (H m Hm) in Htr. discriminate.
        -- split; [|reflexivity]. intros _. right. intros m' Hm'.
           destruct Hm as [Hm1 _], Hm' as [Hm1' _].
           rewrite Hm1 in Hm1'. injection Hm1' as <-. exact Htr.
      * intros m' _ Hm' Htr.
        destruct Hm as [Hm1 _], Hm' as [Hm1' _].
        rewrite Hm1 in Hm1'. injection Hm1' as <-. rewrite Htr. reflexivity.
    + rewrite Hmnone. eexists. split; [reflexivity|]. split.
      * split; [|reflexivity]. intros _. right. intros m Hm.
        exfalso. exact (Hmbad m Hm).
      * intros m _ Hm. exfalso. exact (Hmbad m Hm).
  - eexists. split; [reflexivity|]. split.
    + split; [left; reflexivity | reflexivity].
    + intros m [=].
Qed.



(** ** [WMO_CODE] and the codes the engine tests *)

Lemma find_pointwise {A} (f g : A → bool) (l : list A) :
  (∀ a, f a = g a) → find f l = find g l.
Proof.
  intros H. induction l as [|a l IH]; simpl; [reflexivity|].
  rewrite H, IH. reflexivity.
Qed.

Lemma Qeq_bool_proper (x y k : Q) : (x == y)%Q → Qeq_bool x k = Qeq_bool y k.
Proof.
  intros H. destruct (Qeq_bool y k) eqn:E.
  - apply Qeq_bool_iff. apply Qeq_bool_iff in E. rewrite H. exact E.
  - apply not_true_iff_false. apply not_true_iff_false in E.
    rewrite Qeq_bool_iff in *. rewrite H. exact E.
Qed.

Lemma wmo_get_proper (x y : Q) :
  (x == y)%Q → wmo_get (PyNum x) = wmo_get (PyNum y).
Proof.
  intros H. unfold wmo_get.
  rewrite (find_pointwise _ (λ e : Z * string, Qeq_bool y (inject_Z e.1)));
    [reflexivity|].
  intros e. apply Qeq_bool_proper, H.
Qed.

Lemma wmo_get_found (x : Q) (s : string) :
  wmo_get (PyNum x) = PyStr s →
  ∃ k, (k, s) ∈ WMO_CODE ∧ (x == inject_Z k)%Q.
Proof.
  unfold wmo_get.
  destruct (find _ WMO_CODE) as [[k s']|] eqn:E; [|discriminate].
  intros [= <-]. apply find_some in E as [Hin Heq].
  exists k. split; [apply list_elem_of_In, Hin|].
  apply Qeq_bool_iff, Heq.
Qed.

Lemma code_in_Qeq (x : Q) (k : Z) (ns : list Z) :
  (x == inject_Z k)%Q → k ∈ ns → code_in (PyNum x) ns = true.
Proof.
  intros Hx Hk. unfold code_in. apply existsb_exists.
  exists k. split; [apply list_elem_of_In, Hk | apply Qeq_bool_iff, Hx].
Qed.

Lemma code_in_inv (x : Q) (ns : list Z) :
  code_in (PyNum x) ns = true → ∃ k, k ∈ ns ∧ (x == inject_Z k)%Q.
Proof.
  unfold code_in. intros H. apply existsb_exists in H as (k & Hin & Heq).
  exists k. split; [apply list_elem_of_In, Hin | apply Qeq_bool_iff, Heq].
Qed.

(** X20.  The label table of the client and the codes the engine tests
    agree: a weather code triggers the thunderstorm rule exactly when its
    label in [WMO_CODE] starts with "Thunderstorm", and the fog rule exactly
    when its label is "Fog" or "Depositing rime fog". *)
Theorem wmo_labels_engine_codes (code : pyval) :
  (is_thunderstorm code = true
   ↔ ∃ s, wmo_get code = PyStr s ∧ String.prefix "Thunderstorm" s = true)
  ∧ (is_fog code = true
     ↔ wmo_get code = PyStr "Fog"
       ∨ wmo_get code = PyStr "Depositing rime fog").
Proof.
  destruct code as [|x|t].
  - split; split; try discriminate.
    + intros (s & H & _). discriminate H.
    + intros [H|H]; discriminate H.
  - split; split.
    + intros H. apply code_in_inv in H as (k & Hk & Hx).
      rewrite (wmo_get_proper _ _ Hx).
      repeat (apply elem_of_cons in Hk as [->|Hk];
              [eexists; split; [vm_compute; reflexivity | reflexivity]|]).
      inversion Hk.
    + intros (s & Hs & Hp). apply wmo_get_found in Hs as (k & Hin & Hx).
      apply (code_in_Qeq _ k); [exact Hx|].
      unfold WMO_CODE in Hin.
      repeat (apply elem_of_cons in Hin as [[= -> ->]|Hin];
              [first [discriminate Hp | set_solver]|]).
      inversion Hin.
    + intros H. apply code_in_inv in H as (k & Hk & Hx).
      rewrite (wmo_get_proper _ _ Hx).
      apply elem_of_cons in Hk as [->|Hk]; [left; vm_compute; reflexivity|].
      apply elem_of_cons in Hk as [->|Hk]; [right; vm_compute; reflexivity|].
      inversion Hk.
    + intros H.
      assert (Hs : ∃ s, wmo_get (PyNum x) = PyStr s
                        ∧ (s = "Fog" ∨ s = "Depositing rime fog"))
        by (destruct H as [H|H]; eexists; (split; [exact H|]); tauto).
      destruct Hs as (s & Hs & Hlabel).
      apply wmo_get_found in Hs as (k & Hin & Hx).
      apply (code_in_Qeq _ k); [exact Hx|].
      unfold WMO_CODE in Hin.
      repeat (apply elem_of_cons in Hin as [[= -> ->]|Hin];
              [first [ destruct Hlabel as [Hl|Hl]; discriminate Hl
                     | set_solver ]|]).
      inversion Hin.
  - split; split; try discriminate.
    + intros (s & H & _). discriminate H.
    + intros [H|H]; discriminate H.
Qed.

(** ** [_select_hourly_for_date] *)

Section SelectHourly.
Context {date : Type} `{EqDecision date}.
Variable fromisoformat : string → option date.
Variable hourly : series.
Variable target_day : date.

Lemma select_loop_ok i times res out :
  select_loop fromisoformat hourly target_day i times res = Ok out →
  Forall (λ ts, ∃ d, day_of fromisoformat ts = Ok d) times
  ∧ out = res ++ picks fromisoformat hourly target_day i times.
Proof.
  revert i res out. induction times as [|ts times IH]; intros i res out;
    simpl.
  - intros [= <-]. split; [constructor | rewrite app_nil_r; reflexivity].
  - unfold on_day.
    destruct (day_of fromisoformat ts) as [d|e] eqn:Hd; [|discriminate].
    intros Hloop. apply IH in Hloop as [Hall ->]. split.
    + constructor; [exists d; exact Hd | exact Hall].
    + destruct (decide (d = target_day)) as [Heq|Hne].
      * rewrite bool_decide_eq_true_2 by exact Heq.
        rewrite <- app_assoc. reflexivity.
      * rewrite bool_decide_eq_false_2 by exact Hne. reflexivity.
Qed.

Lemma select_loop_parsed i times res :
  Forall (λ ts, ∃ d, day_of fromisoformat ts = Ok d) times →
  select_loop fromisoformat hourly target_day i times res
  = Ok (res ++ picks fromisoformat hourly target_day i times).
Proof.
  intros Hall. revert i res.
  induction Hall as [|ts times [d Hd] _ IH]; intros i res; simpl.
  - rewrite app_nil_r. reflexivity.
  - unfold on_day. rewrite Hd, IH.
    destruct (decide (d = target_day)) as [Heq|Hne].
    + rewrite bool_decide_eq_true_2 by exact Heq.
      rewrite <- app_assoc. reflexivity.
    + rewrite bool_decide_eq_false_2 by exact Hne. reflexivity.
Qed.

Lemma select_loop_raise i times res e :
  select_loop fromisoformat hourly target_day i times res = Raise e →
  ∃ k ts, times !! k = Some ts ∧ day_of fromisoformat ts = Raise e
          ∧ Forall (λ ts', ∃ d, day_of fromisoformat ts' = Ok d)
              (take k times).
Proof.
  revert i res. induction times as [|ts times IH]; intros i res; simpl.
  - discriminate.
  - destruct (day_of fromisoformat ts) as [d|e'] eqn:Hd.
    + intros Hloop. apply IH in Hloop as (k & ts' & Hk & Hts & Hall).
      exists (S k), ts'. split; [exact Hk|]. split; [exact Hts|].
      simpl. constructor; [exists d; exact Hd | exact Hall].
    + intros [= <-]. exists 0%nat, ts. repeat split; [exact Hd | constructor].
Qed.

Lemma picks_times i times :
  (λ h, dget h "time") <$> picks fromisoformat hourly target_day i times
  = filter (λ ts, on_day fromisoformat target_day ts = true) times.
Proof.
  revert i. induction times as [|ts times IH]; intros i; simpl;
    [reflexivity|].
  rewrite fmap_app, IH.
  destruct (on_day fromisoformat target_day ts) eqn:E.
  - rewrite filter_cons_True by exact E. reflexivity.
  - rewrite filter_cons_False by (rewrite E; discriminate). reflexivity.
Qed.

Lemma picks_elements i times h :
  h ∈ picks fromisoformat hourly target_day i times
  ↔ ∃ k ts, times !! k = Some ts
            ∧ on_day fromisoformat target_day ts = true
            ∧ h = hour_at hourly (i + k) ts.
Proof.
  revert i. induction times as [|ts times IH]; intros i; simpl.
  - split; [intros Hin; inversion Hin|].
    intros (k & ts & Hk & _). rewrite lookup_nil in Hk. discriminate.
  - rewrite elem_of_app, IH. split.
    + intros [Hin|(k & ts' & Hk & Hon & ->)].
      * destruct (on_day fromisoformat target_day ts) eqn:E;
          [|inversion Hin].
        apply list_elem_of_singleton in Hin as ->.
        exists 0%nat, ts. rewrite Nat.add_0_r. repeat split. exact E.
      * exists (S k), ts'. repeat split; [exact Hk | exact Hon|].
        f_equal. lia.
    + intros (k & ts' & Hk & Hon & ->). destruct k as [|k]; simpl in Hk.
      * injection Hk as <-. left. rewrite Hon, Nat.add_0_r. left.
      * right. exists k, ts'. repeat split; [exact Hk | exact Hon|].
        f_equal. lia.
Qed.

End SelectHourly.

Lemma hour_at_entries (hourly : series) (i : nat) (ts : pyval) :
  dget (hour_at hourly i ts) "time" = ts
  ∧ dget (hour_at hourly i ts) "weather_code" = val hourly "weather_code" i
  ∧ dget (hour_at hourly i ts) "wind_speed_10m_kmh"
    = val hourly "wind_speed_10m" i
  ∧ dget (hour_at hourly i ts) "wind_gusts_10m_kmh"
    = val hourly "wind_gusts_10m" i
  ∧ dget (hour_at hourly i ts) "precipitation_mm"
    = val hourly "precipitation" i
  ∧ dget (hour_at hourly i ts) "rain_mm" = val hourly "rain" i.
Proof. repeat split. Qed.

Lemma val_no_text (hourly : series) (name : string) (i : nat) :
  Forall (λ v, no_text v = true) (arr hourly name) →
  no_text (val hourly name i) = true.
Proof.
  intros Hall. unfold val.
  destruct (arr hourly name !! i) as [v|] eqn:E; simpl; [|reflexivity].
  rewrite Forall_forall in Hall. apply Hall.
  apply list_elem_of_lookup. exists i. exact E.
Qed.

Lemma hour_at_numeric (hourly : series) (i : nat) (ts : pyval) :
  numeric_series hourly → numeric_weather (hour_at hourly i ts) = true.
Proof.
  unfold numeric_series. intros Hall.
  apply Forall_cons in Hall as [Hw Hall].
  apply Forall_cons in Hall as [Hg Hall].
  apply Forall_cons in Hall as [Hp Hall].
  apply Forall_cons in Hall as [Hr _].
  unfold numeric_weather.
  destruct (hour_at_entries hourly i ts) as (_ & _ & -> & -> & -> & ->).
  rewrite !val_no_text by assumption. reflexivity.
Qed.


Lemma day_of_raises {date : Type} (fromisoformat : string → option date)
  (ts : pyval) (e : exn) :
  day_of fromisoformat ts = Raise e → e = ValueError ∨ e = TypeError.
Proof.
  unfold day_of. destruct ts as [|x|s]; try (intros [= <-]; right; reflexivity).
  destruct (fromisoformat s); [discriminate|].
  destruct (fromisoformat (replace_Z s)); [discriminate|].
  intros [= <-]. left. reflexivity.
Qed.

Lemma select_hourly_raises {date : Type} `{EqDecision date}
  (fromisoformat : string → option date) (payload : payload)
  (target_day : date) (e : exn) :
  _select_hourly_for_date fromisoformat payload target_day = Raise e →
  e = ValueError ∨ e = TypeError.
Proof.
  unfold _select_hourly_for_date. intros He.
  apply select_loop_raise in He as (k & ts & _ & Hd & _).
  apply (day_of_raises _ _ _ Hd).
Qed.

(** ** [get_forecast_for_date] and the route [/forecast] *)

Section ForecastRoute.
Context {date : Type} `{EqDecision date}.
Variables strptime fromisoformat : string → option date.

Lemma get_forecast_normal include_marine date_str weather_http marine_http :
  get_forecast_for_date strptime fromisoformat include_marine date_str
    weather_http marine_http
  = match strptime date_str with
    | None => Raise ValueError
    | Some target =>
        match _get_json weather_http false with
        | Raise e => Raise e
        | Ok None => Raise AttributeError
        | Ok (Some weather) =>
            match _select_hourly_for_date fromisoformat weather target with
            | Raise e => Raise e
            | Ok hours =>
                Ok {| daily := _parse_daily_weather weather;
                      window :=
                        {| hourly := hours;
                           marine_daily :=
                             marine_summary include_marine marine_http |} |}
            end
        end
    end.
Proof.
  unfold get_forecast_for_date, marine_summary.
  destruct (strptime date_str) as [target|]; [|reflexivity].
  destruct (_get_json weather_http false) as [[weather|]|e]; try reflexivity.
  destruct (_select_hourly_for_date fromisoformat weather target)
    as [hours|e]; [|reflexivity].
  destruct include_marine; [|reflexivity].
  destruct (get_json_answered marine_http) as [(m & _ & Hm)|(_ & Hm & _)];
    rewrite Hm; reflexivity.
Qed.

(** Whether the forecast rules raise is decided by the hours. *)
Lemma assess_forecast_raise_hours hours marine marine' policy fog_policy :
  is_Some (assess_forecast {| hourly := hours; marine_daily := marine |}
             policy fog_policy)
  → is_Some (assess_forecast {| hourly := hours; marine_daily := marine' |}
               policy fog_policy).
Proof.
  unfold assess_forecast. simpl. destruct hours as [|h hours];
    [intros _; eexists; reflexivity|].
  destruct (Forecast.scan policy fog_policy (h :: hours) init) as [st|];
    simpl; [intros _; eexists; reflexivity | intros [? [=]]].
Qed.


End ForecastRoute.

Lemma picks_none {date : Type} `{EqDecision date}
  (fromisoformat : string → option date) (hs : series) (target_day : date)
  (i : nat) (times : list pyval) :
  Forall (λ ts, on_day fromisoformat target_day ts = false) times →
  picks fromisoformat hs target_day i times = [].
Proof.
  intros Hall. revert i. induction Hall as [|ts times Hts _ IH]; intros i;
    simpl; [reflexivity|].
  rewrite Hts, IH. reflexivity.
Qed.

Lemma picks_numeric {date : Type} `{EqDecision date}
  (fromisoformat : string → option date) (hs : series) (target_day : date)
  (i : nat) (times : list pyval) :
  numeric_series hs →
  Forall (λ h, numeric_weather h = true)
    (picks fromisoformat hs target_day i times).
Proof.
  intros Hnum. apply Forall_forall. intros h Hin.
  apply picks_elements in Hin as (k & ts & _ & _ & ->).
  apply hour_at_numeric, Hnum.
Qed.



(** The selected hours of the sample response: the two hours of the day,
    the second without a wind speed because the wind array has one entry. *)
Example two_day_weather_selected :
  let hs := default ∅ (p_hourly two_day_weather) in
  _select_hourly_for_date first_ten two_day_weather "2025-06-01"
  = Ok [hour_at hs 0 (PyStr "2025-06-01T22:00");
        hour_at hs 1 (PyStr "2025-06-01T23:00")]
  ∧ dget (hour_at hs 0 (PyStr "2025-06-01T22:00")) "wind_speed_10m_kmh"
    = PyNum 25
  ∧ dget (hour_at hs 1 (PyStr "2025-06-01T23:00")) "wind_speed_10m_kmh"
    = PyNone
  ∧ dget (hour_at hs 1 (PyStr "2025-06-01T23:00")) "weather_text"
    = PyStr "Fog".
Proof. repeat split; vm_compute; reflexivity. Qed.
